(** * promptpage: the prompt relay of [server.mjs]

    A shallow embedding of the two variants of [server.mjs] (the HTML/CSS
    relay and the HTML/CSS/JS relay): the message builder [buildMessages] and
    the [POST /api/chat] route handler, over a small model of the JavaScript
    values a JSON request body can hold. *)

From Stdlib Require Import String Ascii NArith ZArith Bool Lia List.
From Corelib Require Import PrimFloat.
Import ListNotations.

Set Warnings "-register-all,-inexact-float".

(** ** JavaScript strings

    A JavaScript string is a sequence of UTF-16 code units. *)

Definition code_unit : Type := N.
Definition jsstring : Type := list code_unit.

(** An ASCII literal of the source, one code unit per character. *)
Definition lit (s : string) : jsstring :=
  map N_of_ascii (list_ascii_of_string s).

Definition LF : jsstring := [10%N].
(** The double quote character. *)
Definition DQ : jsstring := [34%N].
(** U+2011 NON-BREAKING HYPHEN and U+2013 EN DASH, both used by the prompt. *)
Definition NB_HYPHEN : jsstring := [8209%N].
Definition EN_DASH : jsstring := [8211%N].

Definition jsstring_eqb (a b : jsstring) : bool :=
  if list_eq_dec N.eq_dec a b then true else false.

(** The lines of a multi-line template chunk, joined by line feeds. *)
Fixpoint lines (ls : list jsstring) : jsstring :=
  match ls with
  | [] => []
  | [l] => l
  | l :: rest => l ++ LF ++ lines rest
  end.

(** [WhiteSpace] and [LineTerminator] code units, the ones
    [String.prototype.trim] strips. *)
Definition is_white_space (c : code_unit) : bool :=
  ((9 <=? c) && (c <=? 13) || (c =? 32) || (c =? 160) || (c =? 5760)
   || ((8192 <=? c) && (c <=? 8202)) || (c =? 8232) || (c =? 8233)
   || (c =? 8239) || (c =? 8287) || (c =? 12288) || (c =? 65279))%N.

Fixpoint trimStart (s : jsstring) : jsstring :=
  match s with
  | c :: rest => if is_white_space c then trimStart rest else s
  | [] => []
  end.

Definition trimEnd (s : jsstring) : jsstring :=
  fold_right
    (fun c kept =>
       match kept with
       | [] => if is_white_space c then [] else [c]
       | _ => c :: kept
       end)
    [] s.

(** [s.trim()] *)
Definition trim (s : jsstring) : jsstring := trimEnd (trimStart s).

Definition is_high_surrogate (c : code_unit) : bool :=
  ((55296 <=? c) && (c <=? 56319))%N.
Definition is_low_surrogate (c : code_unit) : bool :=
  ((56320 <=? c) && (c <=? 57343))%N.

(** The string iterator: one string per code point, a surrogate pair kept
    together. *)
Fixpoint code_points (s : jsstring) : list jsstring :=
  match s with
  | [] => []
  | c :: rest =>
      match rest with
      | d :: rest' =>
          if is_high_surrogate c && is_low_surrogate d
          then [c; d] :: code_points rest'
          else [c] :: code_points rest
      | [] => [[c]]
      end
  end.

(** [occurs p s]: the string [p] occurs in [s] ([s.includes(p)]). *)
Fixpoint starts_with (p s : jsstring) : bool :=
  match p, s with
  | [], _ => true
  | a :: p', b :: s' => (a =? b)%N && starts_with p' s'
  | _ :: _, [] => false
  end.

Fixpoint occurs (p s : jsstring) : bool :=
  starts_with p s ||
  match s with
  | [] => false
  | _ :: s' => occurs p s'
  end.

(** ** JavaScript values

    The values a parsed JSON body can hold, and [undefined] for what is
    absent.  Numbers are IEEE 754 doubles.  An object is the list of its own
    properties (distinct keys). *)

Inductive value : Type :=
| VUndefined
| VNull
| VBool (b : bool)
| VNum (x : float)
| VStr (s : jsstring)
| VArr (elems : list value)
| VObj (props : list (jsstring * value)).

(** The property keys the program reads.  None of them is defined on a
    built-in prototype, so a read finds an own property or nothing; [P_0] is
    the computed key of [choices?.[0]]. *)
Inductive property : Type :=
| P_prompt | P_history | P_state
| P_html | P_css | P_js
| P_choices | P_message | P_content
| P_0.

Definition property_key (p : property) : jsstring :=
  match p with
  | P_prompt => lit "prompt"
  | P_history => lit "history"
  | P_state => lit "state"
  | P_html => lit "html"
  | P_css => lit "css"
  | P_js => lit "js"
  | P_choices => lit "choices"
  | P_message => lit "message"
  | P_content => lit "content"
  | P_0 => lit "0"
  end.

Fixpoint has_own_property (k : jsstring) (props : list (jsstring * value)) : bool :=
  match props with
  | [] => false
  | (k', _) :: rest => jsstring_eqb k k' || has_own_property k rest
  end.

Fixpoint own_property (k : jsstring) (props : list (jsstring * value)) : value :=
  match props with
  | [] => VUndefined
  | (k', v) :: rest => if jsstring_eqb k k' then v else own_property k rest
  end.

(** [v[p]] for a [v] that is neither [null] nor [undefined]. *)
Definition read (v : value) (p : property) : value :=
  match v with
  | VObj props => own_property (property_key p) props
  | VArr elems =>
      match p with
      | P_0 => hd VUndefined elems
      | _ => VUndefined
      end
  | VStr s =>
      match p, s with
      | P_0, c :: _ => VStr [c]
      | _, _ => VUndefined
      end
  | _ => VUndefined
  end.

Definition is_nullish (v : value) : bool :=
  match v with
  | VUndefined | VNull => true
  | _ => false
  end.

(** [ToBoolean] *)
Definition truthy (v : value) : bool :=
  match v with
  | VUndefined | VNull => false
  | VBool b => b
  | VNum x => negb (PrimFloat.eqb x 0 || negb (PrimFloat.eqb x x))
  | VStr s => match s with [] => false | _ => true end
  | VArr _ | VObj _ => true
  end.

(** [a || b], [a ?? b], [v?.p], and a default in a destructuring pattern. *)
Definition or_else (a b : value) : value := if truthy a then a else b.
Definition coalesce (a b : value) : value := if is_nullish a then b else a.
Definition opt_read (v : value) (p : property) : value :=
  if is_nullish v then VUndefined else read v p.
Definition default_to (v d : value) : value :=
  match v with
  | VUndefined => d
  | _ => v
  end.

(** ** The engine

    What the JavaScript engine supplies and the program does not define: the
    text of a number, and the message of the [TypeError]s the language
    raises. *)

Inductive type_error : Type :=
| CannotDestructure   (* destructuring [null] or [undefined] *)
| CannotReadProperty (p : property)  (* a property of [null] *)
| NotIterable         (* [for ... of] over a value with no iterator *)
| CannotConvert.      (* an object with no callable [toString] in a template *)

Class Engine : Type := {
  Number_toString : float -> jsstring;
  TypeError_message : type_error -> jsstring
}.

(** What a [throw] carries: a [TypeError] of the language, or an [Error]
    object (name and message) raised by [fetch] or by reading a body. *)
Inductive exn : Type :=
| TypeError (why : type_error)
| Failure (name message : jsstring).

(** How an evaluation ends: with a value, or with a thrown exception. *)
Inductive completion (A : Type) : Type :=
| Normal (a : A)
| Throw (e : exn).
Arguments Normal {A} a.
Arguments Throw {A} e.

Section WithEngine.
Context {engine : Engine}.

(** [e.message] *)
Definition exn_message (e : exn) : jsstring :=
  match e with
  | TypeError why => TypeError_message why
  | Failure _ m => m
  end.

(** [ToString], as a template literal applies it to a substitution.  An
    array is joined with commas, [null] and [undefined] elements left empty.
    An object prints through [Object.prototype.toString]; an own property
    [toString] of a parsed body is never callable and hides it, and then the
    conversion throws.  The stack of the engine is taken to suffice: on an
    array nested deeper than its stack can take, an engine throws a
    [RangeError] instead, which this model leaves out; what is stated of a
    conversion below is stated of values of bounded nesting ([shallow]). *)
Fixpoint ToString (v : value) : completion jsstring :=
  match v with
  | VUndefined => Normal (lit "undefined")
  | VNull => Normal (lit "null")
  | VBool true => Normal (lit "true")
  | VBool false => Normal (lit "false")
  | VNum x => Normal (Number_toString x)
  | VStr s => Normal s
  | VArr elems =>
      (fix join (l : list value) : completion jsstring :=
         match l with
         | [] => Normal []
         | e :: rest =>
             match (if is_nullish e then Normal [] else ToString e) with
             | Throw err => Throw err
             | Normal s =>
                 match rest with
                 | [] => Normal s
                 | _ :: _ =>
                     match join rest with
                     | Throw err => Throw err
                     | Normal t => Normal (s ++ lit "," ++ t)
                     end
                 end
             end
         end) elems
  | VObj props =>
      if has_own_property (lit "toString") props
      then Throw (TypeError CannotConvert)
      else Normal (lit "[object Object]")
  end.

End WithEngine.

(** ** Effects

    A computation produces the events it performs, in order, and then either
    a value or a thrown exception. *)

(** An argument of a [console] call. *)
Inductive logged : Type :=
| Val (v : value)
| Exn (e : exn).

(** The second argument of [fetch].  [body] is the value handed to
    [JSON.stringify]; the request carries its JSON text. *)
Record request_init : Type := {
  method : jsstring;
  headers : list (jsstring * jsstring);
  body : value
}.

Inductive event : Type :=
| console_info (args : list logged)
| console_error (args : list logged)
| fetch_call (url : value) (init : request_init)
| res_send (status : Z) (json : value).

Definition M (A : Type) : Type := (list event * completion A)%type.

Definition ret {A} (a : A) : M A := ([], Normal a).
Definition throw {A} (e : exn) : M A := ([], Throw e).
Definition emit (ev : event) : M unit := ([ev], Normal tt).

Definition bind {A B} (m : M A) (k : A -> M B) : M B :=
  match m with
  | (evs, Normal a) => let (evs', c) := k a in (evs ++ evs', c)
  | (evs, Throw e) => (evs, Throw e)
  end.

(** [try { m } catch (e) { handle e }] *)
Definition try_catch {A} (m : M A) (handle : exn -> M A) : M A :=
  match m with
  | (evs, Throw e) => let (evs', c) := handle e in (evs ++ evs', c)
  | done => done
  end.

(** An evaluation that performs no event. *)
Definition eval {A} (c : completion A) : M A := ([], c).

(** [await p] for a promise [p] that settles as [c]: a rejection throws at
    the [await]. *)
Definition await {A} (c : completion A) : M A := eval c.

Declare Scope js_scope.
Delimit Scope js_scope with js.
Notation "x <- m ;; k" := (bind m (fun x => k))
  (at level 61, m at next level, right associativity) : js_scope.
Notation "m ;;; k" := (bind m (fun _ => k))
  (at level 61, right associativity) : js_scope.
Open Scope js_scope.

(** What the process reads from its environment. *)
Record environment : Type := {
  env_OPENAI_API_KEY : option jsstring;
  env_OPENAI_ENDPOINT : option jsstring
}.

Definition env_value (o : option jsstring) : value :=
  match o with
  | Some s => VStr s
  | None => VUndefined
  end.

(** The [Response] that [fetch] resolves to: its status, and how reading
    its body as text and as JSON settles. *)
Record response : Type := {
  status : Z;
  text : completion jsstring;
  json : completion value
}.

(** [response.ok]: the status is in the range 200 to 299. *)
Definition ok (r : response) : bool :=
  ((200 <=? status r) && (status r <=? 299))%Z.

(** The completion endpoint as the relay sees it: how a call to [fetch]
    settles. *)
Definition upstream : Type := value -> request_init -> completion response.

Definition fetch (net : upstream) (url : value) (init : request_init)
  : M response :=
  (emit (fetch_call url init) ;;; await (net url init)).

(** ** Messages *)

Inductive role : Type := System | User | Assistant.

Definition role_name (r : role) : jsstring :=
  match r with
  | System => lit "system"
  | User => lit "user"
  | Assistant => lit "assistant"
  end.

(** [{ role, content }] *)
Record message : Type := { msg_role : role; msg_content : value }.

Definition message_value (m : message) : value :=
  VObj [(lit "role", VStr (role_name (msg_role m)));
        (lit "content", msg_content m)].

(** The array of messages as a value, for [console.info] and for the body
    of the upstream request. *)
Definition messages_value (msgs : list message) : value :=
  VArr (map message_value msgs).

(** [msgs.push(m)] *)
Definition push (msgs : list message) (m : message) : list message :=
  msgs ++ [m].

(** [v.p]: reading a property of [null] or [undefined] throws. *)
Definition get (v : value) (p : property) : M value :=
  if is_nullish v then throw (TypeError (CannotReadProperty p))
  else ret (read v p).

(** The values a [for ... of] loop visits: the elements of an array, the
    code points of a string; nothing else a JSON body holds is iterable. *)
Definition iterate (v : value) : M (list value) :=
  match v with
  | VArr elems => ret elems
  | VStr s => ret (map VStr (code_points s))
  | _ => throw (TypeError NotIterable)
  end.

(** ** Variant 1: the HTML/CSS relay *)

Module V1.

(** The template of [system] up to the HTML substitution. *)
Definition system_head : jsstring :=
  lines [
    [];
    lit "You are a front" ++ NB_HYPHEN ++ lit "end assistant. The user is editing a web page.";
    lit "The HTML you're working on is placed inside the the #demo-root element of a following structure";
    lit "```html";
    lit "<!DOCTYPE html>";
    lit "<html lang=" ++ DQ ++ lit "en" ++ DQ ++ lit ">";
    lit " <head>";
    lit "  <meta charset=" ++ DQ ++ lit "UTF-8" ++ DQ ++ lit ">";
    lit "  <title>WIP</title>";
    lit "  <style id=" ++ DQ ++ lit "demo-style" ++ DQ ++ lit ">";
    lit "  /* CSS you return is placed here (and to document.adoptedStyleSheets) */";
    lit "  </style>";
    lit " </head>";
    lit " <body>";
    lit "  <div id=" ++ DQ ++ lit "app" ++ DQ ++ lit ">";
    lit "   <div id=" ++ DQ ++ lit "demo-root" ++ DQ ++ lit ">";
    lit "    <!-- Demo area " ++ EN_DASH ++ lit " HTML you return is placed here -->";
    lit "   </div>";
    lit "   <!-- Other things you don't need to care about -->";
    lit "  </div>";
    lit " </body>";
    lit "</html>";
    lit "```";
    lit "The HTML content is placed within a div block inside a body, so your response can't use html, head, title, body, etc tags.";
    lit "When the user wants you to add CSS to the whole page (like a background), add it to #demo-root instead of html or body.";
    [];
    lit "Current HTML (inside #demo-root):";
    lit "```html";
    []
  ].

(** Between the HTML and the CSS substitutions. *)
Definition system_middle : jsstring :=
  lines [
    [];
    lit "```";
    [];
    lit "Current CSS (scoped to #demo-root):";
    lit "```css";
    []
  ].

(** After the CSS substitution. *)
Definition system_tail : jsstring :=
  lines [
    [];
    lit "```";
    [];
    lit "Only respond with **complete** HTML and/or CSS wrapped in fenced code blocks. Additions must also include the existing content, they replace the old content completely.";
    lit "When making only style changes, omit html, when making only HTML changes, omit css.";
    []
  ].

Section Relay.
Context {engine : Engine}.

(** [process.env] *)
Variable env : environment.

Definition OPENAI_API_KEY : value := env_value (env_OPENAI_API_KEY env).
Definition OPENAI_ENDPOINT : value :=
  or_else (env_value (env_OPENAI_ENDPOINT env))
          (VStr (lit "https://api.openai.com/v1/chat/completions")).
Definition MODEL : jsstring := lit "gpt-4o-mini".

(** [function buildMessages({ history = [], state = {} })] *)
Definition buildMessages (history state : value) : M (list message) :=
  let history := default_to history (VArr []) in
  let state := default_to state (VObj []) in
  let msgs : list message := [] in
  html <- get state P_html ;;
  html <- eval (ToString (or_else html (VStr (lit "<!-- none -->")))) ;;
  css <- get state P_css ;;
  css <- eval (ToString (or_else css (VStr (lit "/* none */")))) ;;
  let system := system_head ++ html ++ system_middle ++ css ++ system_tail in
  let msgs := push msgs {| msg_role := System; msg_content := VStr (trim system) |} in
  items <- iterate history ;;
  let msgs :=
    fold_left
      (fun msgs userPrompt =>
         let msgs := push msgs {| msg_role := User; msg_content := userPrompt |} in
         push msgs {| msg_role := Assistant;
                      msg_content := VStr (lit "Request completed") |})
      items msgs in
  ret msgs.

(** [app.post("/api/chat", async (req, res) => ...)], applied to [req.body].
    [JSON.stringify] of the request and [res.json] of a response are taken
    to succeed, and [body] and [res_send] hold the value handed to them; on
    a value nested deeper than the stack of the engine can take they throw
    inside the [try], which this model leaves out. *)
Definition handler (net : upstream) (req_body : value) : M unit :=
  (if is_nullish req_body then throw (TypeError CannotDestructure) else ret tt) ;;;
  let prompt := read req_body P_prompt in
  let history := default_to (read req_body P_history) (VArr []) in
  let state := default_to (read req_body P_state) (VObj []) in
  if negb (truthy prompt) then
    emit (res_send 400 (VObj [(lit "error", VStr (lit "Missing prompt"))]))
  else
    messages <- buildMessages history state ;;
    let messages := push messages {| msg_role := User; msg_content := prompt |} in
    emit (console_info [Val (messages_value messages)]) ;;;
    try_catch
      (key <- eval (ToString OPENAI_API_KEY) ;;
       response <-
         fetch net OPENAI_ENDPOINT
           {| method := lit "POST";
              headers :=
                [(lit "Content-Type", lit "application/json");
                 (lit "Authorization", lit "Bearer " ++ key)];
              body :=
                VObj [(lit "model", VStr MODEL);
                      (lit "temperature", VNum 0.7%float);
                      (lit "messages", messages_value messages);
                      (lit "stream", VBool false)] |} ;;
       if negb (ok response) then
         err <- await (text response) ;;
         emit (console_error [Val (VStr (lit "OpenAI error:")); Val (VStr err)]) ;;;
         emit (res_send 502 (VObj [(lit "error", VStr (lit "OpenAI request failed"));
                                   (lit "details", VStr err)]))
       else
         data <- await (json response) ;;
         let reply :=
           coalesce
             (opt_read (opt_read (opt_read (opt_read data P_choices) P_0) P_message)
                       P_content)
             (VStr []) in
         emit (res_send 200 (VObj [(lit "reply", reply)])))
      (fun e =>
         emit (console_error [Exn e]) ;;;
         emit (res_send 500 (VObj [(lit "error", VStr (lit "Proxy error"));
                                   (lit "details", VStr (exn_message e))]))).

End Relay.
End V1.

(** ** Variant 2: the HTML/CSS/JS relay *)

Module V2.

(** The template of [system], which has no substitution. *)
Definition system_template : jsstring :=
  lines [
    [];
    lit "You are a front" ++ NB_HYPHEN ++ lit "end assistant. The user is editing a web page.";
    lit "The HTML you're working on is placed inside the the #demo-root element of a following structure";
    lit "```html";
    lit "<!DOCTYPE html>";
    lit "<html lang=" ++ DQ ++ lit "en" ++ DQ ++ lit ">";
    lit " <head>";
    lit "  <meta charset=" ++ DQ ++ lit "UTF-8" ++ DQ ++ lit ">";
    lit "  <title>WIP</title>";
    lit "  <style id=" ++ DQ ++ lit "demo-style" ++ DQ ++ lit ">/* CSS you return is placed here (and to document.adoptedStyleSheets) */</style>";
    lit " </head>";
    lit " <body id=" ++ DQ ++ lit "demo-root" ++ DQ ++ lit "><!-- Demo area " ++ EN_DASH ++ lit " HTML you return is placed here --></body>";
    lit "</html>";
    lit "```";
    lit "The HTML content is placed within a body tag, so your response can't use html, head, title, body, etc tags.";
    [];
    lit "When you need JavaScript, return it in a fenced block labelled `js` (or `javascript`).";
    [];
    lit "Only respond with **complete** HTML and/or CSS and/or JS wrapped in fenced code blocks. If you output a block of specific type, it overrides all the previous content of the same type. So additions must also contain all the previous content.";
    [];
    lit "If there's no change to a type of resource, omit any blocks of that type (existing content can/will be cleared by an empty block). E.g. No js change -> don't output a js block.";
    [];
    lit "The user may be requesting things one at a time. Try your best to avoid changing things you're not asked to change.";
    []
  ].

(** The template of the state message up to the HTML substitution. *)
Definition state_head : jsstring :=
  lines [
    lit "Current HTML (inside #demo-root):";
    lit "```html";
    []
  ].

(** Between the HTML and the CSS substitutions. *)
Definition state_html_css : jsstring :=
  lines [
    [];
    lit "```";
    [];
    lit "Current CSS (scoped to #demo-root):";
    lit "```css";
    []
  ].

(** Between the CSS and the JavaScript substitutions. *)
Definition state_css_js : jsstring :=
  lines [
    [];
    lit "```";
    [];
    lit "Current JavaScript (executed inside the iframe):";
    lit "```js";
    []
  ].

(** After the JavaScript substitution. *)
Definition state_tail : jsstring :=
  lines [
    [];
    lit "```"
  ].

Section Relay.
Context {engine : Engine}.

(** [process.env] *)
Variable env : environment.

Definition OPENAI_API_KEY : value := env_value (env_OPENAI_API_KEY env).
Definition OPENAI_ENDPOINT : value :=
  or_else (env_value (env_OPENAI_ENDPOINT env))
          (VStr (lit "https://api.openai.com/v1/chat/completions")).
Definition MODEL : jsstring := lit "gpt-4o-mini".

(** [function buildMessages({ history = [], state = {} })] *)
Definition buildMessages (history state : value) : M (list message) :=
  let history := default_to history (VArr []) in
  let state := default_to state (VObj []) in
  let msgs : list message := [] in
  let system := trim system_template in
  let msgs := push msgs {| msg_role := System; msg_content := VStr system |} in
  items <- iterate history ;;
  let msgs :=
    fold_left
      (fun msgs userPrompt =>
         let msgs := push msgs {| msg_role := User; msg_content := userPrompt |} in
         push msgs {| msg_role := Assistant;
                      msg_content := VStr (lit "Request completed") |})
      items msgs in
  html <- get state P_html ;;
  html <- eval (ToString (or_else html (VStr (lit "<!-- none -->")))) ;;
  css <- get state P_css ;;
  css <- eval (ToString (or_else css (VStr (lit "/* none */")))) ;;
  js <- get state P_js ;;
  js <- eval (ToString (or_else js (VStr (lit "// none")))) ;;
  let msgs :=
    push msgs
      {| msg_role := System;
         msg_content :=
           VStr (state_head ++ html ++ state_html_css ++ css
                 ++ state_css_js ++ js ++ state_tail) |} in
  ret msgs.

(** [app.post("/api/chat", async (req, res) => ...)], applied to [req.body].
    [JSON.stringify] of the request and [res.json] of a response are taken
    to succeed, and [body] and [res_send] hold the value handed to them; on
    a value nested deeper than the stack of the engine can take they throw
    inside the [try], which this model leaves out. *)
Definition handler (net : upstream) (req_body : value) : M unit :=
  (if is_nullish req_body then throw (TypeError CannotDestructure) else ret tt) ;;;
  let prompt := read req_body P_prompt in
  let history := default_to (read req_body P_history) (VArr []) in
  let state := default_to (read req_body P_state) (VObj []) in
  if negb (truthy prompt) then
    emit (res_send 400 (VObj [(lit "error", VStr (lit "Missing prompt"))]))
  else
    messages <- buildMessages history state ;;
    let messages := push messages {| msg_role := User; msg_content := prompt |} in
    emit (console_info [Val (VStr (lit "=== OpenAI request ==="))]) ;;;
    emit (console_info [Val (messages_value messages)]) ;;;
    emit (console_info [Val (VStr (lit "======================"))]) ;;;
    try_catch
      (key <- eval (ToString OPENAI_API_KEY) ;;
       response <-
         fetch net OPENAI_ENDPOINT
           {| method := lit "POST";
              headers :=
                [(lit "Content-Type", lit "application/json");
                 (lit "Authorization", lit "Bearer " ++ key)];
              body :=
                VObj [(lit "model", VStr MODEL);
                      (lit "temperature", VNum 0.8%float);
                      (lit "messages", messages_value messages);
                      (lit "stream", VBool false);
                      (lit "reasoning_format", VStr (lit "auto"))] |} ;;
       if negb (ok response) then
         err <- await (text response) ;;
         emit (console_error [Val (VStr (lit "OpenAI error:")); Val (VStr err)]) ;;;
         emit (res_send 502 (VObj [(lit "error", VStr (lit "OpenAI request failed"));
                                   (lit "details", VStr err)]))
       else
         data <- await (json response) ;;
         let reply :=
           coalesce
             (opt_read (opt_read (opt_read (opt_read data P_choices) P_0) P_message)
                       P_content)
             (VStr []) in
         emit (res_send 200 (VObj [(lit "reply", reply)])))
      (fun e =>
         emit (console_error [Exn e]) ;;;
         emit (res_send 500 (VObj [(lit "error", VStr (lit "Proxy error"));
                                   (lit "details", VStr (exn_message e))]))).

End Relay.
End V2.

(** ** The two variants side by side *)

Inductive variant : Type := Variant1 | Variant2.

Section Variants.
Context {engine : Engine}.

Definition buildMessages_of (v : variant) : value -> value -> M (list message) :=
  match v with
  | Variant1 => V1.buildMessages
  | Variant2 => V2.buildMessages
  end.

Definition handler_of (v : variant) (env : environment) (net : upstream)
  (req_body : value) : M unit :=
  match v with
  | Variant1 => V1.handler env net req_body
  | Variant2 => V2.handler env net req_body
  end.

End Variants.

(** What the handler destructures from [req.body]. *)
Definition prompt_of (req_body : value) : value := read req_body P_prompt.
Definition history_of (req_body : value) : value :=
  default_to (read req_body P_history) (VArr []).
Definition state_of (req_body : value) : value :=
  default_to (read req_body P_state) (VObj []).

(** The value of [OPENAI_ENDPOINT], the same in both variants. *)
Definition endpoint (env : environment) : value := V1.OPENAI_ENDPOINT env.

(** The [Authorization] header: the key of the environment, or the text of
    [undefined]. *)
Definition authorization (env : environment) : jsstring :=
  lit "Bearer " ++
  match env_OPENAI_API_KEY env with
  | Some key => key
  | None => lit "undefined"
  end.

(** The request each variant sends upstream for a list of messages. *)
Definition upstream_request (v : variant) (env : environment)
  (messages : list message) : request_init :=
  {| method := lit "POST";
     headers := [(lit "Content-Type", lit "application/json");
                 (lit "Authorization", authorization env)];
     body :=
       VObj ([(lit "model", VStr (lit "gpt-4o-mini"));
              (lit "temperature",
               VNum match v with Variant1 => 0.7%float | Variant2 => 0.8%float end);
              (lit "messages", messages_value messages);
              (lit "stream", VBool false)]
             ++ match v with
                | Variant1 => []
                | Variant2 => [(lit "reasoning_format", VStr (lit "auto"))]
                end) |}.

(** What each variant logs before it calls upstream. *)
Definition request_log (v : variant) (messages : list message) : list event :=
  match v with
  | Variant1 => [console_info [Val (messages_value messages)]]
  | Variant2 =>
      [console_info [Val (VStr (lit "=== OpenAI request ==="))];
       console_info [Val (messages_value messages)];
       console_info [Val (VStr (lit "======================"))]]
  end.

(** The responses of the handler's three error kinds and of a success. *)
Definition InvalidRequest : event :=
  res_send 400 (VObj [(lit "error", VStr (lit "Missing prompt"))]).
Definition UpstreamError (details : jsstring) : event :=
  res_send 502 (VObj [(lit "error", VStr (lit "OpenAI request failed"));
                      (lit "details", VStr details)]).
Definition RelayError (details : jsstring) : event :=
  res_send 500 (VObj [(lit "error", VStr (lit "Proxy error"));
                      (lit "details", VStr details)]).
Definition Reply (reply : value) : event :=
  res_send 200 (VObj [(lit "reply", reply)]).

Definition is_fetch_call (ev : event) : bool :=
  match ev with
  | fetch_call _ _ => true
  | _ => false
  end.

(** An engine to run the model on concrete requests, with [TypeError]
    messages in the wording of V8.  Of the numbers it prints only NaN, the
    zeros and the infinities; no example below converts another number to
    text. *)
Definition example_engine : Engine :=
  {| Number_toString := fun x =>
       if negb (PrimFloat.eqb x x) then lit "NaN"
       else if PrimFloat.eqb x 0 then lit "0"
       else if PrimFloat.eqb x infinity then lit "Infinity"
       else if PrimFloat.eqb x neg_infinity then lit "-Infinity"
       else [];
     TypeError_message := fun why =>
       match why with
       | CannotDestructure =>
           lit "Cannot destructure property 'prompt' of 'req.body' as it is undefined."
       | CannotReadProperty p =>
           lit "Cannot read properties of null (reading '"
           ++ property_key p ++ lit "')"
       | NotIterable => lit "history is not iterable"
       | CannotConvert => lit "Cannot convert object to primitive value"
       end |}.

Definition example_env : environment :=
  {| env_OPENAI_API_KEY := Some (lit "sk-test"); env_OPENAI_ENDPOINT := None |}.

(** *** The shape of what [buildMessages] returns *)

Definition REQUEST_COMPLETED : value := VStr (lit "Request completed").

(** History replay in the words of the specification: for each entry, in
    order, a user message with that entry, then the placeholder assistant
    message. *)
Definition history_replay (history : list value) : list message :=
  flat_map
    (fun entry =>
       [{| msg_role := User; msg_content := entry |};
        {| msg_role := Assistant; msg_content := REQUEST_COMPLETED |}])
    history.

(** The placeholders of the three substitutions. *)
Definition NO_HTML : jsstring := lit "<!-- none -->".
Definition NO_CSS : jsstring := lit "/* none */".
Definition NO_JS : jsstring := lit "// none".

(** A substitution in the words of the specification: the field verbatim
    when it is a non-empty string, the placeholder when it is absent or
    empty. *)
Definition substituted (field : value) (placeholder : jsstring) : jsstring :=
  match field with
  | VStr (c :: s) => c :: s
  | _ => placeholder
  end.

(** The [state] of the data model: absent, or an object whose [html], [css]
    and [js] are each absent or a string. *)
Definition is_text_or_absent (field : value) : bool :=
  match field with
  | VUndefined | VStr _ => true
  | _ => false
  end.

Definition is_state (state : value) : bool :=
  match state with
  | VUndefined => true
  | VObj _ =>
      forallb (fun p => is_text_or_absent (read state p)) [P_html; P_css; P_js]
  | _ => false
  end.

(** The system message of variant 1, given the two substituted texts. *)
Definition system_message_1 (html css : jsstring) : message :=
  {| msg_role := System;
     msg_content :=
       VStr (trim (V1.system_head ++ html ++ V1.system_middle ++ css
                   ++ V1.system_tail)) |}.

(** The two system messages of variant 2: the instructions, and the state
    given the three substituted texts. *)
Definition system_message_2 : message :=
  {| msg_role := System; msg_content := VStr (trim V2.system_template) |}.

Definition state_message_2 (html css js : jsstring) : message :=
  {| msg_role := System;
     msg_content :=
       VStr (V2.state_head ++ html ++ V2.state_html_css ++ css
             ++ V2.state_css_js ++ js ++ V2.state_tail) |}.

Arguments V1.system_head : simpl never.
Arguments V1.system_middle : simpl never.
Arguments V1.system_tail : simpl never.
Arguments V2.system_template : simpl never.
Arguments V2.state_head : simpl never.
Arguments V2.state_html_css : simpl never.
Arguments V2.state_css_js : simpl never.
Arguments V2.state_tail : simpl never.
Arguments lit : simpl never.
Arguments trim : simpl never.

(** The text a variant substitutes for a field of a [state] of the data
    model. *)
Definition text_of (state : value) (p : property) (placeholder : jsstring)
  : jsstring :=
  substituted (read (default_to state (VObj [])) p) placeholder.

(** The messages before and after the replayed history, per variant. *)
Definition before_history (v : variant) (state : value) : list message :=
  match v with
  | Variant1 =>
      [system_message_1 (text_of state P_html NO_HTML)
                        (text_of state P_css NO_CSS)]
  | Variant2 => [system_message_2]
  end.

Definition after_history (v : variant) (state : value) : list message :=
  match v with
  | Variant1 => []
  | Variant2 =>
      [state_message_2 (text_of state P_html NO_HTML)
                       (text_of state P_css NO_CSS)
                       (text_of state P_js NO_JS)]
  end.

(** What [buildMessages] returns for an array [items] and a [state] of the
    data model. *)
Definition built (v : variant) (items : list value) (state : value)
  : list message :=
  before_history v state ++ history_replay items ++ after_history v state.

Definition user_message (prompt : value) : message :=
  {| msg_role := User; msg_content := prompt |}.

(** The order of the submitted list in the words of the specification:
    system instructions, then the replayed history, then the current
    document state, then the new prompt. *)
Definition ordered_as_specified (history : list value) (prompt : value)
  (messages : list message) : Prop :=
  exists instructions document : message,
    messages
    = [instructions] ++ history_replay history ++ [document]
      ++ [user_message prompt].

(** *** Examples *)

(** A well-formed request, and one whose [history] is a number. *)
Definition example_request : value :=
  VObj [(lit "prompt", VStr (lit "make it blue"));
        (lit "history", VArr [VStr (lit "add a title")]);
        (lit "state", VObj [(lit "html", VStr (lit "<h1>Hi</h1>"))])].

Definition request_with_numeric_history : value :=
  VObj [(lit "prompt", VStr (lit "hi")); (lit "history", VNum 5%float)].

(** An upstream whose every call settles the same way. *)
Definition always (c : completion response) : upstream := fun _ _ => c.

(** Upstreams for the examples: one that cannot be reached, one that
    answers 200 with a completion, one that answers 503 with a readable body
    and one that answers 503 and breaks off while its body is read. *)
Definition fetch_failed : exn := Failure (lit "TypeError") (lit "fetch failed").
Definition terminated : exn := Failure (lit "TypeError") (lit "terminated").
Definition not_json : exn :=
  Failure (lit "SyntaxError") (lit "Unexpected token S in JSON at position 0").

Definition unreachable : upstream := always (Throw fetch_failed).

Definition completion_of (content : jsstring) : response :=
  {| status := 200;
     text := Normal [];
     json :=
       Normal
         (VObj [(lit "choices",
                 VArr [VObj [(lit "message",
                              VObj [(lit "role", VStr (lit "assistant"));
                                    (lit "content", VStr content)])]])]) |}.

Definition unavailable : response :=
  {| status := 503;
     text := Normal (lit "Service Unavailable");
     json := Throw not_json |}.

Definition unavailable_and_cut : response :=
  {| status := 503; text := Throw terminated; json := Throw terminated |}.

(** A request with nothing but a prompt, and the same with an empty history,
    an empty state and a field the handler does not know. *)
Definition bare_request : value :=
  VObj [(lit "prompt", VStr (lit "make it blue"))].

Definition padded_request : value :=
  VObj [(lit "user", VStr (lit "ann"));
        (lit "prompt", VStr (lit "make it blue"));
        (lit "history", VArr []);
        (lit "state", VObj [])].

(** A 2xx response whose first choice has the given content. *)
Definition completion_with (content : value) : response :=
  {| status := 200;
     text := Normal [];
     json :=
       Normal
         (VObj [(lit "choices",
                 VArr [VObj [(lit "message",
                              VObj [(lit "content", content)])]])]) |}.

(** The messages variant 1 builds for [example_request], and sends. *)
Definition example_built_1 : list message :=
  [system_message_1 (lit "<h1>Hi</h1>") NO_CSS;
   user_message (VStr (lit "add a title"));
   {| msg_role := Assistant; msg_content := REQUEST_COMPLETED |}].

Definition example_sent_1 : list message :=
  example_built_1 ++ [user_message (VStr (lit "make it blue"))].

(** *** How the handler answers once the upstream call has settled *)

(** [data?.choices?.[0]?.message?.content] *)
Definition first_choice_content (data : value) : value :=
  read (read (read (read data P_choices) P_0) P_message) P_content.

Section Answers.
Context {engine : Engine}.

(** The [catch] clause. *)
Definition caught (e : exn) : list event :=
  [console_error [Exn e]; RelayError (exn_message e)].

Definition answered (c : completion response) : list event :=
  match c with
  | Throw e => caught e
  | Normal r =>
      if ok r then
        match json r with
        | Normal data => [Reply (coalesce (first_choice_content data) (VStr []))]
        | Throw e => caught e
        end
      else
        match text r with
        | Normal err =>
            [console_error [Val (VStr (lit "OpenAI error:")); Val (VStr err)];
             UpstreamError err]
        | Throw e => caught e
        end
  end.

End Answers.

(** *** Predicates on the inputs of [buildMessages] and on events *)

(** What a [for ... of] loop accepts among the values of a body. *)
Definition iterable (v : value) : bool :=
  match v with
  | VArr _ | VStr _ => true
  | _ => false
  end.

(** The values a template literal can convert to text: all but an object
    with an own [toString], alone or in an array at any depth. *)
Fixpoint convertible (v : value) : bool :=
  match v with
  | VArr elems => forallb convertible elems
  | VObj props => negb (has_own_property (lit "toString") props)
  | _ => true
  end.

(** The fields of [state] a variant reads. *)
Definition slots (v : variant) : list property :=
  match v with
  | Variant1 => [P_html; P_css]
  | Variant2 => [P_html; P_css; P_js]
  end.

Definition DEFAULT_ENDPOINT : jsstring :=
  lit "https://api.openai.com/v1/chat/completions".

Definition is_res_send (ev : event) : bool :=
  match ev with
  | res_send _ _ => true
  | _ => false
  end.

(** The responses among the events of a run. *)
Definition responses (evs : list event) : list event :=
  filter is_res_send evs.

(** What a run shows to the client and to the log: all its events but the
    upstream calls. *)
Definition visible (evs : list event) : list event :=
  filter (fun ev => negb (is_fetch_call ev)) evs.

(** How deep the arrays and objects of a value are nested. *)
Fixpoint depth (v : value) : nat :=
  match v with
  | VArr elems => S (list_max (map depth elems))
  | VObj props => S (list_max (map (fun kv => depth (snd kv)) props))
  | _ => 0
  end.

(** A nesting that troubles the stack of no engine. *)
Definition MODEST_DEPTH : nat := 16.

Definition shallow (v : value) : bool := depth v <=? MODEST_DEPTH.

(** The fields of a state that a variant reads are of modest nesting. *)
Definition shallow_fields (v : variant) (state : value) : bool :=
  forallb (fun p => shallow (read state p)) (slots v).

(** The numbers whose JSON text reads back as the same number: the finite
    ones but the negative zero. *)
Definition wire_exact (x : float) : bool :=
  match classify x with
  | FloatClass.PNormal | FloatClass.NNormal
  | FloatClass.PSubn | FloatClass.NSubn | FloatClass.PZero => true
  | _ => false
  end.

(** The scalars that reach a client as they are: strings, booleans and the
    numbers above. *)
Definition relayable (v : value) : bool :=
  match v with
  | VStr _ | VBool _ => true
  | VNum x => wire_exact x
  | _ => false
  end.

(** The values a [for ... of] loop over an iterable value visits. *)
Definition items_of (v : value) : list value :=
  match v with
  | VArr elems => elems
  | VStr s => map VStr (code_points s)
  | _ => []
  end.

(** A computation that performs no event. *)
Definition silent {A} (m : M A) : Prop := fst m = [].

Create HintDb silent.

(** ** The handler rejects a request without a prompt *)

Section Validation.
Context {engine : Engine}.
Variable env : environment.

Lemma handler_falsy_prompt (v : variant) (net : upstream) (req_body : value) :
  is_nullish req_body = false ->
  truthy (prompt_of req_body) = false ->
  handler_of v env net req_body = ([InvalidRequest], Normal tt).
Proof.
  intros Hbody Hprompt. unfold prompt_of in Hprompt.
  destruct v; unfold handler_of, V1.handler, V2.handler;
    rewrite Hbody, Hprompt; reflexivity.
Qed.

(** C1: a request whose prompt is missing or the empty string is answered
    with the InvalidRequest response (HTTP 400 with an error field) and
    nothing else happens: no upstream call is made, and the outcome is the
    same whatever the history, the state and the upstream are. *)
Theorem C1_missing_prompt_is_rejected (v : variant) (net : upstream)
  (req_body : value) :
  is_nullish req_body = false ->
  prompt_of req_body = VUndefined \/ prompt_of req_body = VStr [] ->
  handler_of v env net req_body = ([InvalidRequest], Normal tt)
  /\ existsb is_fetch_call (fst (handler_of v env net req_body)) = false
  /\ (forall (net' : upstream) (other : value),
        is_nullish other = false ->
        prompt_of other = VUndefined \/ prompt_of other = VStr [] ->
        handler_of v env net' other = handler_of v env net req_body).
Proof.
  intros Hbody Hprompt.
  assert (Hrun : forall n b, is_nullish b = false ->
            prompt_of b = VUndefined \/ prompt_of b = VStr [] ->
            handler_of v env n b = ([InvalidRequest], Normal tt)).
  { intros n b Hb [Hp | Hp]; apply handler_falsy_prompt; trivial;
      rewrite Hp; reflexivity. }
  rewrite (Hrun net req_body Hbody Hprompt).
  repeat split.
  intros net' other Hother Hp. apply Hrun; assumption.
Qed.

End Validation.

(** ** What [buildMessages] returns *)

Lemma replay_loop (items : list value) (msgs : list message) :
  fold_left
    (fun msgs userPrompt =>
       let msgs := push msgs {| msg_role := User; msg_content := userPrompt |} in
       push msgs {| msg_role := Assistant;
                    msg_content := VStr (lit "Request completed") |})
    items msgs
  = msgs ++ history_replay items.
Proof.
  revert msgs. induction items as [| entry items IH]; intro msgs; cbn [fold_left].
  - cbn. now rewrite app_nil_r.
  - rewrite IH. unfold push. cbn [history_replay flat_map].
    now rewrite <- !app_assoc.
Qed.

Lemma history_replay_length (history : list value) :
  length (history_replay history) = 2 * length history.
Proof.
  induction history as [| entry history IH]; cbn [history_replay flat_map].
  - reflexivity.
  - cbn [app length]. fold (history_replay history). rewrite IH. lia.
Qed.

Lemma history_replay_nth (history : list value) (i : nat) (entry : value) :
  nth_error history i = Some entry ->
  nth_error (history_replay history) (2 * i)
  = Some {| msg_role := User; msg_content := entry |}
  /\ nth_error (history_replay history) (2 * i + 1)
     = Some {| msg_role := Assistant; msg_content := REQUEST_COMPLETED |}.
Proof.
  revert i. induction history as [| e history IH]; intros [| i] H;
    try discriminate.
  - injection H as ->. split; reflexivity.
  - replace (2 * S i) with (S (S (2 * i))) by lia.
    replace (S (S (2 * i)) + 1) with (S (S (2 * i + 1))) by lia.
    cbn [history_replay flat_map app nth_error].
    apply IH. exact H.
Qed.

Section BuildMessages.
Context {engine : Engine}.

Lemma buildMessages_1_run (history state : value) (items : list value)
  (html css : jsstring) :
  iterate (default_to history (VArr [])) = ([], Normal items) ->
  is_nullish (default_to state (VObj [])) = false ->
  ToString (or_else (read (default_to state (VObj [])) P_html) (VStr NO_HTML))
  = Normal html ->
  ToString (or_else (read (default_to state (VObj [])) P_css) (VStr NO_CSS))
  = Normal css ->
  V1.buildMessages history state
  = ([], Normal (system_message_1 html css :: history_replay items)).
Proof.
  intros Hitems Hstate Hhtml Hcss.
  unfold V1.buildMessages, get. rewrite Hstate.
  unfold NO_HTML, NO_CSS in *.
  unfold bind, ret, eval. rewrite Hhtml, Hcss, Hitems.
  rewrite replay_loop. reflexivity.
Qed.

Lemma buildMessages_2_run (history state : value) (items : list value)
  (html css js : jsstring) :
  iterate (default_to history (VArr [])) = ([], Normal items) ->
  is_nullish (default_to state (VObj [])) = false ->
  ToString (or_else (read (default_to state (VObj [])) P_html) (VStr NO_HTML))
  = Normal html ->
  ToString (or_else (read (default_to state (VObj [])) P_css) (VStr NO_CSS))
  = Normal css ->
  ToString (or_else (read (default_to state (VObj [])) P_js) (VStr NO_JS))
  = Normal js ->
  V2.buildMessages history state
  = ([], Normal (system_message_2 :: history_replay items
                 ++ [state_message_2 html css js])).
Proof.
  intros Hitems Hstate Hhtml Hcss Hjs.
  unfold V2.buildMessages, get. rewrite Hstate.
  unfold NO_HTML, NO_CSS, NO_JS in *.
  unfold bind, ret, eval. rewrite Hitems, Hhtml, Hcss, Hjs.
  rewrite replay_loop. reflexivity.
Qed.

End BuildMessages.

(** *** Substitutions *)

Section Substitutions.
Context {engine : Engine}.

Lemma ToString_falsy (field : value) (placeholder : jsstring) :
  truthy field = false ->
  ToString (or_else field (VStr placeholder)) = Normal placeholder.
Proof. intro H. unfold or_else. rewrite H. reflexivity. Qed.

Lemma ToString_text (c : code_unit) (s placeholder : jsstring) :
  ToString (or_else (VStr (c :: s)) (VStr placeholder)) = Normal (c :: s).
Proof. reflexivity. Qed.

Lemma ToString_substituted (field : value) (placeholder : jsstring) :
  is_text_or_absent field = true ->
  ToString (or_else field (VStr placeholder))
  = Normal (substituted field placeholder).
Proof.
  destruct field as [| | b | x | [| c s] | elems | props]; try discriminate;
    reflexivity.
Qed.

Lemma is_state_fields (state : value) :
  is_state state = true ->
  is_nullish (default_to state (VObj [])) = false
  /\ forall p, In p [P_html; P_css; P_js] ->
       is_text_or_absent (read (default_to state (VObj [])) p) = true.
Proof.
  destruct state as [| | b | x | s | elems | props]; try discriminate.
  - intros _. split; [reflexivity |]. intros p _. destruct p; reflexivity.
  - unfold is_state. rewrite forallb_forall. intro H. split; [reflexivity |].
    exact H.
Qed.

End Substitutions.

(** *** No event is performed *)

Lemma silent_ret {A} (a : A) : silent (ret a).
Proof. reflexivity. Qed.

Lemma silent_eval {A} (c : completion A) : silent (eval c).
Proof. reflexivity. Qed.

Lemma silent_get (v : value) (p : property) : silent (get v p).
Proof. unfold get. destruct (is_nullish v); reflexivity. Qed.

Lemma silent_iterate (v : value) : silent (iterate v).
Proof. destruct v; reflexivity. Qed.


#[local] Hint Resolve silent_ret silent_eval silent_get silent_iterate : silent.

Section Purity.
Context {engine : Engine}.


End Purity.

(** ** The handler once the messages are built *)

Lemma opt_read_read (v : value) (p : property) : opt_read v p = read v p.
Proof. destruct v; reflexivity. Qed.

Section Handler.
Context {engine : Engine}.
Variable env : environment.

Lemma handler_run (v : variant) (net : upstream) (req_body : value)
  (msgs : list message) :
  is_nullish req_body = false ->
  truthy (prompt_of req_body) = true ->
  buildMessages_of v (history_of req_body) (state_of req_body)
  = ([], Normal msgs) ->
  let messages := msgs ++ [user_message (prompt_of req_body)] in
  let init := upstream_request v env messages in
  handler_of v env net req_body
  = (request_log v messages
     ++ fetch_call (endpoint env) init :: answered (net (endpoint env) init),
     Normal tt).
Proof.
  intros Hbody Hprompt Hbuild messages init.
  assert (Hkey : ToString (env_value (env_OPENAI_API_KEY env))
                 = Normal match env_OPENAI_API_KEY env with
                          | Some key => key
                          | None => lit "undefined"
                          end).
  { destruct (env_OPENAI_API_KEY env); reflexivity. }
  remember (net (endpoint env) init) as settled eqn:Hsettled.
  unfold prompt_of, history_of, state_of, user_message in *.
  destruct v; unfold handler_of, V1.handler, V2.handler;
    cbn [buildMessages_of] in Hbuild; rewrite Hbody, Hprompt, Hbuild;
    unfold V1.OPENAI_API_KEY, V2.OPENAI_API_KEY; rewrite Hkey;
    unfold fetch, push; cbn [bind ret eval emit await negb app];
    match goal with
    | |- context [net ?u ?i] =>
        change (net u i) with (net (endpoint env) init)
    end;
    rewrite <- Hsettled;
    destruct settled as [r | e]; cbn;
    try (destruct (ok r); cbn;
         [destruct (json r); cbn | destruct (text r); cbn]);
    rewrite ?opt_read_read; reflexivity.
Qed.

End Handler.

(** ** Trimming the system template *)

Lemma trimStart_app (h x : jsstring) :
  trimStart h <> [] -> trimStart (h ++ x) = trimStart h ++ x.
Proof.
  induction h as [| c h IH]; cbn [trimStart app]; intro H.
  - contradiction.
  - destruct (is_white_space c); [apply IH; exact H | reflexivity].
Qed.

Lemma trimEnd_app (y t : jsstring) :
  trimEnd t <> [] -> trimEnd (y ++ t) = y ++ trimEnd t.
Proof.
  intro H. induction y as [| c y IH]; [reflexivity |].
  unfold trimEnd in *. cbn [app fold_right]. rewrite IH.
  destruct (y ++ fold_right _ [] t) eqn:E; [| reflexivity].
  apply app_eq_nil in E. destruct E as [_ E]. contradiction.
Qed.

Lemma trim_between (h x t : jsstring) :
  trimStart h <> [] -> trimEnd t <> [] ->
  trim (h ++ x ++ t) = trimStart h ++ x ++ trimEnd t.
Proof.
  intros Hh Ht. unfold trim. rewrite trimStart_app by exact Hh.
  rewrite !app_assoc. rewrite trimEnd_app by exact Ht. reflexivity.
Qed.

(** The template of variant 1 starts and ends with one line feed, which is
    all that [trim] removes. *)
Lemma system_head_trimmed : V1.system_head = LF ++ trimStart V1.system_head.
Proof. vm_compute. reflexivity. Qed.

Lemma system_tail_trimmed : V1.system_tail = trimEnd V1.system_tail ++ LF.
Proof. vm_compute. reflexivity. Qed.

Lemma system_message_1_content (html css : jsstring) :
  msg_content (system_message_1 html css)
  = VStr (trimStart V1.system_head ++ html ++ V1.system_middle ++ css
          ++ trimEnd V1.system_tail).
Proof.
  unfold system_message_1. cbn [msg_content]. f_equal.
  replace (V1.system_head ++ html ++ V1.system_middle ++ css ++ V1.system_tail)
    with (V1.system_head ++ (html ++ V1.system_middle ++ css) ++ V1.system_tail)
    by now rewrite <- !app_assoc.
  rewrite trim_between.
  - now rewrite <- !app_assoc.
  - vm_compute. discriminate.
  - vm_compute. discriminate.
Qed.

Lemma starts_with_app (p s : jsstring) : starts_with p (p ++ s) = true.
Proof.
  induction p as [| c p IH]; [reflexivity |].
  cbn [app starts_with]. now rewrite N.eqb_refl.
Qed.

Lemma occurs_app (p before after : jsstring) :
  occurs p (before ++ p ++ after) = true.
Proof.
  induction before as [| c before IH].
  - cbn [app]. pose proof (starts_with_app p after) as H.
    destruct (p ++ after); cbn [occurs]; rewrite H; reflexivity.
  - cbn [app occurs]. rewrite IH. apply orb_true_r.
Qed.

(** ** The claims *)

Section Claims.
Context {engine : Engine}.
Variable env : environment.

Lemma buildMessages_built (v : variant) (items : list value) (state : value) :
  is_state state = true ->
  buildMessages_of v (VArr items) state = ([], Normal (built v items state)).
Proof.
  intro Hstate. unfold built. apply is_state_fields in Hstate. destruct Hstate as [Hnull Hf].
  destruct v; cbn [buildMessages_of before_history after_history].
  - rewrite app_nil_r.
    apply buildMessages_1_run; try reflexivity; try exact Hnull;
      apply ToString_substituted, Hf; cbn; tauto.
  - apply buildMessages_2_run; try reflexivity; try exact Hnull;
      apply ToString_substituted, Hf; cbn; tauto.
Qed.

(** C2: for a history that is a list of strings and a state of the data
    model, the messages that [buildMessages] returns are system messages
    around the history replay; the replay has exactly twice as many messages
    as the history has entries, and for each [i] its message [2 i] is the
    user message with the [i]-th entry and its message [2 i + 1] is the
    assistant message with content "Request completed". *)
Theorem C2_history_replay (v : variant) (history : list jsstring)
  (state : value) :
  is_state state = true ->
  (exists before after : list message,
     buildMessages_of v (VArr (map VStr history)) state
     = ([], Normal (before ++ history_replay (map VStr history) ++ after))
     /\ Forall (fun m => msg_role m = System) (before ++ after))
  /\ length (history_replay (map VStr history)) = 2 * length history
  /\ (forall (i : nat) (entry : jsstring),
        nth_error history i = Some entry ->
        nth_error (history_replay (map VStr history)) (2 * i)
        = Some {| msg_role := User; msg_content := VStr entry |}
        /\ nth_error (history_replay (map VStr history)) (2 * i + 1)
           = Some {| msg_role := Assistant;
                     msg_content := VStr (lit "Request completed") |}).
Proof.
  intro Hstate. split; [| split].
  - exists (before_history v state), (after_history v state). split.
    + apply (buildMessages_built v _ _ Hstate).
    + destruct v; repeat constructor.
  - rewrite history_replay_length, length_map. reflexivity.
  - intros i entry Hi. apply history_replay_nth.
    rewrite nth_error_map, Hi. reflexivity.
Qed.

(** C3 (amended): for a state of the data model, each variant substitutes
    a field into the slot its template has for it: variant 1 has slots for
    the HTML and the CSS in its one system message and none for the
    JavaScript, which it does not read, so that its message is the same for
    two states with the same HTML and CSS; variant 2 has slots for all three
    in the system message it puts after the history.  The text in a slot is
    the placeholder when the field is absent or the empty string, and the
    field verbatim when it is a non-empty string; no placeholder is empty or
    the text of [undefined]. *)
Theorem C3_placeholders_per_variant (items : list value) (state : value) :
  is_state state = true ->
  (exists content : jsstring,
     V1.buildMessages (VArr items) state
     = ([], Normal ({| msg_role := System; msg_content := VStr content |}
                    :: history_replay items))
     /\ content
        = trimStart V1.system_head ++ text_of state P_html NO_HTML
          ++ V1.system_middle ++ text_of state P_css NO_CSS
          ++ trimEnd V1.system_tail)
  /\ (forall state' : value,
        is_state state' = true ->
        read (default_to state' (VObj [])) P_html
        = read (default_to state (VObj [])) P_html ->
        read (default_to state' (VObj [])) P_css
        = read (default_to state (VObj [])) P_css ->
        V1.buildMessages (VArr items) state'
        = V1.buildMessages (VArr items) state)
  /\ V2.buildMessages (VArr items) state
     = ([], Normal (system_message_2 :: history_replay items
                    ++ [{| msg_role := System;
                           msg_content :=
                             VStr (V2.state_head ++ text_of state P_html NO_HTML
                                   ++ V2.state_html_css
                                   ++ text_of state P_css NO_CSS
                                   ++ V2.state_css_js
                                   ++ text_of state P_js NO_JS
                                   ++ V2.state_tail) |}]))
  /\ (forall (p : property) (placeholder : jsstring),
        read (default_to state (VObj [])) p = VUndefined
        \/ read (default_to state (VObj [])) p = VStr [] ->
        text_of state p placeholder = placeholder)
  /\ (forall (p : property) (placeholder : jsstring) (c : code_unit)
        (s : jsstring),
        read (default_to state (VObj [])) p = VStr (c :: s) ->
        text_of state p placeholder = c :: s)
  /\ (forall placeholder : jsstring,
        In placeholder [NO_HTML; NO_CSS; NO_JS] ->
        placeholder <> [] /\ placeholder <> lit "undefined").
Proof.
  intro Hstate. split; [| split; [| repeat split]].
  - eexists. split.
    + pose proof (buildMessages_built Variant1 items state Hstate) as H.
      cbn [buildMessages_of] in H. rewrite H. unfold built.
      cbn [before_history after_history app]. rewrite app_nil_r.
      unfold system_message_1. reflexivity.
    + pose proof (system_message_1_content (text_of state P_html NO_HTML)
                    (text_of state P_css NO_CSS)) as H.
      unfold system_message_1 in H. cbn [msg_content] in H.
      injection H as H. exact H.
  - intros state' Hstate' Hhtml Hcss.
    pose proof (buildMessages_built Variant1 items state Hstate) as H.
    pose proof (buildMessages_built Variant1 items state' Hstate') as H'.
    cbn [buildMessages_of] in H, H'. rewrite H, H'.
    unfold built, before_history, text_of. rewrite Hhtml, Hcss. reflexivity.
  - exact (buildMessages_built Variant2 items state Hstate).
  - intros p placeholder [H | H]; unfold text_of; rewrite H; reflexivity.
  - intros p placeholder c s H. unfold text_of. rewrite H. reflexivity.
  - cbn in H. destruct H as [<- | [<- | [<- | []]]]; vm_compute; discriminate.
  - cbn in H. destruct H as [<- | [<- | [<- | []]]]; vm_compute; discriminate.
Qed.

Lemma answered_no_fetch (c : completion response) :
  existsb is_fetch_call (answered c) = false.
Proof.
  destruct c as [r | e]; cbn [answered]; [| reflexivity].
  destruct (ok r); [destruct (json r) | destruct (text r)]; reflexivity.
Qed.

(** C4 (amended): for a request whose prompt is a non-empty string, whose
    history is an array of strings and whose state is of the data model,
    [buildMessages] returns the list without the prompt, and the handler
    submits that list with exactly one more message at its end, the user
    message of the prompt, in one upstream call.  In variant 2 the list is
    the system instructions, the replayed history, the system message of
    the document state, the prompt; in variant 1 the document state is part
    of the leading system message, so the list is that message, the
    replayed history, the prompt. *)
Theorem C4_submitted_messages (v : variant) (net : upstream)
  (req_body : value) (c : code_unit) (prompt : jsstring)
  (history : list jsstring) :
  is_nullish req_body = false ->
  prompt_of req_body = VStr (c :: prompt) ->
  history_of req_body = VArr (map VStr history) ->
  is_state (state_of req_body) = true ->
  buildMessages_of v (history_of req_body) (state_of req_body)
  = ([], Normal (before_history v (state_of req_body)
                 ++ history_replay (map VStr history)
                 ++ after_history v (state_of req_body)))
  /\ exists answer : list event,
       handler_of v env net req_body
       = (request_log v
            (before_history v (state_of req_body)
             ++ history_replay (map VStr history)
             ++ after_history v (state_of req_body)
             ++ [user_message (VStr (c :: prompt))])
          ++ fetch_call (endpoint env)
               (upstream_request v env
                  (before_history v (state_of req_body)
                   ++ history_replay (map VStr history)
                   ++ after_history v (state_of req_body)
                   ++ [user_message (VStr (c :: prompt))]))
             :: answer,
          Normal tt)
       /\ existsb is_fetch_call answer = false.
Proof.
  intros Hbody Hprompt Hhistory Hstate.
  pose proof (buildMessages_built v (map VStr history) _ Hstate) as Hbuilt.
  rewrite <- Hhistory in Hbuilt. unfold built in Hbuilt.
  assert (Htruthy : truthy (prompt_of req_body) = true)
    by (rewrite Hprompt; reflexivity).
  split; [rewrite Hhistory in Hbuilt |- *; exact Hbuilt |].
  eexists. split.
  - rewrite (handler_run env v net _ _ Hbody Htruthy Hbuilt).
    rewrite Hprompt, <- !app_assoc. reflexivity.
  - apply answered_no_fetch.
Qed.

(** C5: when the upstream call resolves to a response with a 2xx status
    whose body parses to [data], the handler answers [{reply}]: with [X]
    when [choices[0].message.content] of [data] is the string [X], and with
    the empty string when [choices] is missing or empty, or the message or
    its content is missing. *)
Theorem C5_reply_extraction (v : variant) (net : upstream) (req_body : value)
  (msgs : list message) (r : response) (data : value) :
  is_nullish req_body = false ->
  truthy (prompt_of req_body) = true ->
  buildMessages_of v (history_of req_body) (state_of req_body)
  = ([], Normal msgs) ->
  net (endpoint env)
      (upstream_request v env (msgs ++ [user_message (prompt_of req_body)]))
  = Normal r ->
  ok r = true ->
  json r = Normal data ->
  exists reply : value,
    handler_of v env net req_body
    = (request_log v (msgs ++ [user_message (prompt_of req_body)])
       ++ [fetch_call (endpoint env)
             (upstream_request v env
                (msgs ++ [user_message (prompt_of req_body)]));
           Reply reply],
       Normal tt)
    /\ (forall X : jsstring,
          first_choice_content data = VStr X -> reply = VStr X)
    /\ (read data P_choices = VUndefined
        \/ read data P_choices = VArr []
        \/ read (read (read data P_choices) P_0) P_message = VUndefined
        \/ first_choice_content data = VUndefined ->
        reply = VStr []).
Proof.
  intros Hbody Hprompt Hbuild Hnet Hok Hjson.
  exists (coalesce (first_choice_content data) (VStr [])). split; [| split].
  - rewrite (handler_run env v net _ _ Hbody Hprompt Hbuild).
    cbv zeta. rewrite Hnet. cbn [answered]. rewrite Hok, Hjson. reflexivity.
  - intros X HX. rewrite HX. reflexivity.
  - unfold first_choice_content.
    intros [H | [H | [H | H]]]; rewrite H; reflexivity.
Qed.

(** C6 (amended): when the upstream call resolves to a response whose status
    is not 2xx, the handler answers 502 with the text of the upstream body
    as [details] if that text can be read, and 500 with the message of the
    exception if reading it throws; it never answers with a reply. *)
Theorem C6_upstream_error (v : variant) (net : upstream) (req_body : value)
  (msgs : list message) (r : response) :
  is_nullish req_body = false ->
  truthy (prompt_of req_body) = true ->
  buildMessages_of v (history_of req_body) (state_of req_body)
  = ([], Normal msgs) ->
  net (endpoint env)
      (upstream_request v env (msgs ++ [user_message (prompt_of req_body)]))
  = Normal r ->
  ok r = false ->
  handler_of v env net req_body
  = (request_log v (msgs ++ [user_message (prompt_of req_body)])
     ++ fetch_call (endpoint env)
          (upstream_request v env
             (msgs ++ [user_message (prompt_of req_body)]))
        :: match text r with
           | Normal err =>
               [console_error [Val (VStr (lit "OpenAI error:")); Val (VStr err)];
                UpstreamError err]
           | Throw e => [console_error [Exn e]; RelayError (exn_message e)]
           end,
     Normal tt).
Proof.
  intros Hbody Hprompt Hbuild Hnet Hok.
  rewrite (handler_run env v net _ _ Hbody Hprompt Hbuild).
  cbv zeta. rewrite Hnet. cbn [answered]. rewrite Hok.
  destruct (text r); reflexivity.
Qed.

(** C7: when the call to the upstream endpoint throws, or reading the body
    of its response throws (the JSON of a 2xx response, the text of another
    one), the handler itself completes normally: it logs the exception and
    answers 500 with [{error, details}], [details] being the message of the
    exception. *)
Theorem C7_relay_error (v : variant) (net : upstream) (req_body : value)
  (msgs : list message) (e : exn) :
  is_nullish req_body = false ->
  truthy (prompt_of req_body) = true ->
  buildMessages_of v (history_of req_body) (state_of req_body)
  = ([], Normal msgs) ->
  net (endpoint env)
      (upstream_request v env (msgs ++ [user_message (prompt_of req_body)]))
  = Throw e
  \/ (exists r : response,
        net (endpoint env)
            (upstream_request v env
               (msgs ++ [user_message (prompt_of req_body)]))
        = Normal r
        /\ (ok r = true /\ json r = Throw e
            \/ ok r = false /\ text r = Throw e)) ->
  handler_of v env net req_body
  = (request_log v (msgs ++ [user_message (prompt_of req_body)])
     ++ [fetch_call (endpoint env)
           (upstream_request v env
              (msgs ++ [user_message (prompt_of req_body)]));
         console_error [Exn e];
         RelayError (exn_message e)],
     Normal tt).
Proof.
  intros Hbody Hprompt Hbuild Hnet.
  rewrite (handler_run env v net _ _ Hbody Hprompt Hbuild). cbv zeta.
  destruct Hnet as [Hnet | [r [Hnet [[Hok Hread] | [Hok Hread]]]]];
    rewrite Hnet; cbn [answered]; rewrite ?Hok, ?Hread; reflexivity.
Qed.

Lemma handler_build_throws (v : variant) (net : upstream) (req_body : value)
  (e : exn) :
  is_nullish req_body = false ->
  truthy (prompt_of req_body) = true ->
  buildMessages_of v (history_of req_body) (state_of req_body)
  = ([], Throw e) ->
  handler_of v env net req_body = ([], Throw e).
Proof.
  intros Hbody Hprompt Hbuild.
  unfold prompt_of, history_of, state_of in *.
  destruct v; unfold handler_of, V1.handler, V2.handler;
    cbn [buildMessages_of] in Hbuild; rewrite Hbody, Hprompt, Hbuild;
    reflexivity.
Qed.

(** C9, at a request whose history is a number: [buildMessages] is called
    before the [try] block, the [TypeError] of its loop leaves the handler,
    and no response is sent. *)
Theorem C9_numeric_history_escapes (v : variant) (net : upstream) :
  handler_of v env net request_with_numeric_history
  = ([], Throw (TypeError NotIterable)).
Proof.
  apply handler_build_throws; try reflexivity.
  destruct v; reflexivity.
Qed.


End Claims.

(** ** The claims at concrete requests *)

Lemma C1_witness :
  handler_of (engine := example_engine) Variant1 example_env unreachable
    (VObj [(lit "history", VArr [VStr (lit "add a title")])])
  = ([InvalidRequest], Normal tt).
Proof.
  apply (C1_missing_prompt_is_rejected (engine := example_engine)).
  - reflexivity.
  - left. reflexivity.
Defined.

Lemma C2_witness :
  length (history_replay (map VStr [lit "add a title"; lit "make it blue"]))
  = 2 * length [lit "add a title"; lit "make it blue"].
Proof.
  apply (C2_history_replay (engine := example_engine) Variant2
           [lit "add a title"; lit "make it blue"]
           (VObj [(lit "css", VStr (lit "h1 { color: red }"))])).
  reflexivity.
Defined.

(** C3 as stated fails in variant 1: with no [js] in the state, its only
    message, the system message, does not contain the placeholder of the
    JavaScript, for its template has no slot for it. *)
Lemma C3_counterexample :
  V1.buildMessages (engine := example_engine) (VArr []) (VObj [])
  = ([], Normal [{| msg_role := System;
                    msg_content :=
                      VStr (trimStart V1.system_head ++ NO_HTML
                            ++ V1.system_middle ++ NO_CSS
                            ++ trimEnd V1.system_tail) |}])
  /\ occurs NO_JS
       (trimStart V1.system_head ++ NO_HTML ++ V1.system_middle ++ NO_CSS
        ++ trimEnd V1.system_tail)
     = false.
Proof. split; vm_compute; reflexivity. Qed.

Lemma C3_witness :
  V2.buildMessages (engine := example_engine) (VArr [])
    (VObj [(lit "html", VStr (lit "<h1>Hi</h1>")); (lit "css", VStr [])])
  = ([], Normal
           [system_message_2;
            {| msg_role := System;
               msg_content :=
                 VStr (V2.state_head ++ lit "<h1>Hi</h1>" ++ V2.state_html_css
                       ++ NO_CSS ++ V2.state_css_js ++ NO_JS
                       ++ V2.state_tail) |}]).
Proof.
  apply (C3_placeholders_per_variant (engine := example_engine) []
           (VObj [(lit "html", VStr (lit "<h1>Hi</h1>")); (lit "css", VStr [])])).
  reflexivity.
Defined.

(** C4 as stated fails in variant 1: the list it submits for
    [example_request] is the system message, which holds the document state,
    the two messages of the replay and the prompt; no message stands between
    the replay and the prompt. *)
Lemma C4_counterexample :
  handler_of (engine := example_engine) Variant1 example_env unreachable
    example_request
  = ([console_info [Val (messages_value example_sent_1)];
      fetch_call (endpoint example_env)
        (upstream_request Variant1 example_env example_sent_1);
      console_error [Exn fetch_failed];
      RelayError (lit "fetch failed")],
     Normal tt)
  /\ ~ ordered_as_specified [VStr (lit "add a title")]
         (VStr (lit "make it blue")) example_sent_1.
Proof.
  split.
  - vm_compute. reflexivity.
  - intros [instructions [document H]].
    apply (f_equal (@length message)) in H. discriminate H.
Qed.

Lemma C4_witness :
  buildMessages_of (engine := example_engine) Variant1
    (history_of example_request) (state_of example_request)
  = ([], Normal example_built_1).
Proof.
  apply (C4_submitted_messages (engine := example_engine) example_env
           Variant1 unreachable example_request 109%N (lit "ake it blue")
           [lit "add a title"]);
    reflexivity.
Defined.

Lemma C5_witness :
  exists reply : value,
    handler_of (engine := example_engine) Variant1 example_env
      (always (Normal (completion_of (lit "X")))) example_request
    = (request_log Variant1 example_sent_1
       ++ [fetch_call (endpoint example_env)
             (upstream_request Variant1 example_env example_sent_1);
           Reply reply],
       Normal tt)
    /\ reply = VStr (lit "X").
Proof.
  destruct (C5_reply_extraction (engine := example_engine) example_env
              Variant1 (always (Normal (completion_of (lit "X"))))
              example_request example_built_1 (completion_of (lit "X"))
              (VObj [(lit "choices",
                      VArr [VObj [(lit "message",
                                   VObj [(lit "role", VStr (lit "assistant"));
                                         (lit "content", VStr (lit "X"))])]])])
              eq_refl eq_refl eq_refl eq_refl eq_refl eq_refl)
    as [reply [Hrun [Hreply _]]].
  exists reply. split.
  - exact Hrun.
  - apply Hreply. reflexivity.
Defined.

(** C6 as stated fails when the body of the upstream response cannot be
    read: the upstream status is 503 and the handler answers 500. *)
Lemma C6_counterexample :
  ok unavailable_and_cut = false
  /\ handler_of (engine := example_engine) Variant1 example_env
       (always (Normal unavailable_and_cut)) example_request
     = ([console_info [Val (messages_value example_sent_1)];
         fetch_call (endpoint example_env)
           (upstream_request Variant1 example_env example_sent_1);
         console_error [Exn terminated];
         RelayError (lit "terminated")],
        Normal tt).
Proof. split; vm_compute; reflexivity. Qed.

Lemma C6_witness :
  handler_of (engine := example_engine) Variant1 example_env
    (always (Normal unavailable)) example_request
  = ([console_info [Val (messages_value example_sent_1)];
      fetch_call (endpoint example_env)
        (upstream_request Variant1 example_env example_sent_1);
      console_error [Val (VStr (lit "OpenAI error:"));
                     Val (VStr (lit "Service Unavailable"))];
      UpstreamError (lit "Service Unavailable")],
     Normal tt).
Proof.
  apply (C6_upstream_error (engine := example_engine) example_env Variant1
           (always (Normal unavailable)) example_request example_built_1
           unavailable);
    reflexivity.
Defined.

Lemma C7_witness :
  handler_of (engine := example_engine) Variant1 example_env unreachable
    example_request
  = ([console_info [Val (messages_value example_sent_1)];
      fetch_call (endpoint example_env)
        (upstream_request Variant1 example_env example_sent_1);
      console_error [Exn fetch_failed];
      RelayError (lit "fetch failed")],
     Normal tt).
Proof.
  apply (C7_relay_error (engine := example_engine) example_env Variant1
           unreachable example_request example_built_1 fetch_failed).
  - reflexivity.
  - reflexivity.
  - reflexivity.
  - left. reflexivity.
Defined.

(** * Beyond the claims *)

(** ** Converting to text *)

Lemma value_nested_ind (P : value -> Prop) :
  P VUndefined -> P VNull -> (forall b, P (VBool b)) -> (forall x, P (VNum x)) ->
  (forall s, P (VStr s)) ->
  (forall elems, Forall P elems -> P (VArr elems)) ->
  (forall props, P (VObj props)) ->
  forall v, P v.
Proof.
  intros Hu Hn Hb Hx Hs Ha Ho.
  fix IH 1.
  intros [| | b | x | s | elems | props];
    [exact Hu | exact Hn | apply Hb | apply Hx | apply Hs | | apply Ho].
  apply Ha. induction elems as [| e elems IHelems]; constructor.
  - apply IH.
  - exact IHelems.
Qed.

Section Conversion.
Context {engine : Engine}.

Lemma ToString_array_cons (e : value) (rest : list value) :
  ToString (VArr (e :: rest))
  = match (if is_nullish e then Normal [] else ToString e) with
    | Throw err => Throw err
    | Normal s =>
        match rest with
        | [] => Normal s
        | _ :: _ =>
            match ToString (VArr rest) with
            | Throw err => Throw err
            | Normal t => Normal (s ++ lit "," ++ t)
            end
        end
    end.
Proof. reflexivity. Qed.

Lemma nullish_convertible (v : value) : is_nullish v = true -> convertible v = true.
Proof. destruct v; try discriminate; reflexivity. Qed.

Lemma ToString_convertible (v : value) :
  if convertible v
  then exists s, ToString v = Normal s
  else ToString v = Throw (TypeError CannotConvert).
Proof.
  induction v as [| | b | x | s | elems IH | props] using value_nested_ind;
    try (cbn; eauto; fail).
  - destruct b; cbn; eauto.
  - induction IH as [| e rest He Hrest IHrest]; [cbn; eauto |].
    rewrite ToString_array_cons. cbn [convertible forallb].
    fold (convertible (VArr rest)) in *.
    change (forallb convertible rest) with (convertible (VArr rest)).
    destruct (is_nullish e) eqn:Hnull.
    + rewrite (nullish_convertible e Hnull). cbn [andb].
      destruct (convertible (VArr rest)).
      * destruct IHrest as [t Ht]. rewrite Ht. destruct rest; eauto.
      * rewrite IHrest. destruct rest; [discriminate IHrest | reflexivity].
    + destruct (convertible e).
      * destruct He as [s Hs]. rewrite Hs. cbn [andb].
        destruct (convertible (VArr rest)).
        -- destruct IHrest as [t Ht]. rewrite Ht. destruct rest; eauto.
        -- rewrite IHrest. destruct rest; [discriminate IHrest | reflexivity].
      * rewrite He. reflexivity.
  - cbn. destruct (has_own_property (lit "toString") props); cbn; eauto.
Qed.

Lemma ToString_or_else (field : value) (placeholder : jsstring) :
  if convertible field
  then exists s, ToString (or_else field (VStr placeholder)) = Normal s
  else ToString (or_else field (VStr placeholder))
       = Throw (TypeError CannotConvert).
Proof.
  unfold or_else. destruct (truthy field) eqn:Ht.
  - apply ToString_convertible.
  - destruct field; try discriminate Ht; cbn; eauto.
Qed.

End Conversion.

(** ** When [buildMessages] returns *)

Lemma iterate_iterable (v : value) :
  iterate v
  = ([], if iterable v then Normal (items_of v)
         else Throw (TypeError NotIterable)).
Proof. destruct v; reflexivity. Qed.

Lemma bind_silent {A B} (c : completion A) (k : A -> M B) :
  bind ([], c) k
  = match c with
    | Normal a => k a
    | Throw e => ([], Throw e)
    end.
Proof. destruct c as [a | e]; cbn; [destruct (k a) |]; reflexivity. Qed.

Section Building.
Context {engine : Engine}.

Ltac convert_field st p ph :=
  let H := fresh "Hfield" in
  let s := fresh "s" in
  pose proof (ToString_or_else (read st p) ph) as H;
  destruct (convertible (read st p));
  [destruct H as [s H]; rewrite H | rewrite H].

Ltac run_silent :=
  unfold ret, eval, throw; repeat (rewrite bind_silent; cbv beta iota).

Ltac settle_returns :=
  split;
  [ intros [msgs H]; first [discriminate H | repeat split]
  | intros [H1 [H2 H3]];
    first [discriminate H1 | discriminate H2 | discriminate H3
          | eexists; reflexivity] ].

Lemma buildMessages_returns_iff (v : variant) (history state : value) :
  (exists msgs : list message,
     buildMessages_of v history state = ([], Normal msgs))
  <-> iterable (default_to history (VArr [])) = true
      /\ is_nullish (default_to state (VObj [])) = false
      /\ forallb (fun p => convertible (read (default_to state (VObj [])) p))
           (slots v) = true.
Proof.
  set (st := default_to state (VObj [])).
  set (hi := default_to history (VArr [])).
  destruct v; cbn [buildMessages_of slots forallb];
    unfold V1.buildMessages, V2.buildMessages, get;
    fold st; fold hi; rewrite (iterate_iterable hi);
    destruct (is_nullish st); destruct (iterable hi).
  all: run_silent; try (settle_returns; fail).
  all: convert_field st P_html (lit "<!-- none -->"); run_silent;
    try (settle_returns; fail).
  all: convert_field st P_css (lit "/* none */"); run_silent;
    try (settle_returns; fail).
  all: convert_field st P_js (lit "// none"); run_silent;
    try (settle_returns; fail).
Qed.

Lemma buildMessages_cases (v : variant) (history state : value) :
  (exists why : type_error,
     buildMessages_of v history state = ([], Throw (TypeError why)))
  \/ (exists (first : message) (rest : list message),
        buildMessages_of v history state
        = ([], Normal (first
                       :: history_replay
                            (items_of (default_to history (VArr [])))
                          ++ rest))
        /\ msg_role first = System
        /\ Forall (fun m => msg_role m = System) rest
        /\ length rest = length (slots v) - 2).
Proof.
  set (st := default_to state (VObj [])).
  set (hi := default_to history (VArr [])).
  destruct (is_nullish st) eqn:Hnull.
  { left. destruct v; cbn [buildMessages_of];
      unfold V1.buildMessages, V2.buildMessages, get;
      fold st; fold hi; rewrite Hnull, ?(iterate_iterable hi);
      destruct (iterable hi); run_silent; eexists; reflexivity. }
  destruct (iterable hi) eqn:Hiter.
  2:{ left. destruct v; cbn [buildMessages_of];
      unfold V1.buildMessages, V2.buildMessages, get;
      fold st; fold hi; rewrite Hnull, (iterate_iterable hi), Hiter;
      run_silent.
      - convert_field st P_html (lit "<!-- none -->"); run_silent;
          [| eexists; reflexivity].
        convert_field st P_css (lit "/* none */"); run_silent;
          eexists; reflexivity.
      - eexists; reflexivity. }
  assert (Hitems : iterate hi = ([], Normal (items_of hi))).
  { rewrite iterate_iterable, Hiter. reflexivity. }
  pose proof (ToString_or_else (read st P_html) NO_HTML) as Hhtml.
  pose proof (ToString_or_else (read st P_css) NO_CSS) as Hcss.
  pose proof (ToString_or_else (read st P_js) NO_JS) as Hjs.
  destruct v; cbn [buildMessages_of slots length].
  - destruct (convertible (read st P_html)); [destruct Hhtml as [html Hhtml] |].
    2:{ left. unfold V1.buildMessages, get. fold st. rewrite Hnull.
        unfold NO_HTML in Hhtml. run_silent. rewrite Hhtml. run_silent.
        eexists; reflexivity. }
    destruct (convertible (read st P_css)); [destruct Hcss as [css Hcss] |].
    2:{ left. unfold V1.buildMessages, get. fold st. rewrite Hnull.
        unfold NO_HTML, NO_CSS in *. run_silent. rewrite Hhtml. run_silent.
        rewrite Hcss. run_silent. eexists; reflexivity. }
    right. exists (system_message_1 html css), [].
    rewrite app_nil_r. repeat split; [| constructor].
    apply buildMessages_1_run; assumption.
  - destruct (convertible (read st P_html)); [destruct Hhtml as [html Hhtml] |].
    2:{ left. unfold V2.buildMessages, get. fold st; fold hi.
        rewrite Hnull, Hitems. unfold NO_HTML in Hhtml. run_silent.
        rewrite Hhtml. run_silent. eexists; reflexivity. }
    destruct (convertible (read st P_css)); [destruct Hcss as [css Hcss] |].
    2:{ left. unfold V2.buildMessages, get. fold st; fold hi.
        rewrite Hnull, Hitems. unfold NO_HTML, NO_CSS in *. run_silent.
        rewrite Hhtml. run_silent. rewrite Hcss. run_silent.
        eexists; reflexivity. }
    destruct (convertible (read st P_js)); [destruct Hjs as [js Hjs] |].
    2:{ left. unfold V2.buildMessages, get. fold st; fold hi.
        rewrite Hnull, Hitems. unfold NO_HTML, NO_CSS, NO_JS in *. run_silent.
        rewrite Hhtml. run_silent. rewrite Hcss. run_silent.
        rewrite Hjs. run_silent. eexists; reflexivity. }
    right. exists system_message_2, [state_message_2 html css js].
    repeat split; [| repeat constructor].
    apply buildMessages_2_run; assumption.
Qed.

(** X1: for a state whose fields read by the variant are of modest
    nesting, [buildMessages] returns a list exactly when the history (an
    absent one counts as the empty array) is an array or a string, the
    state (an absent one counts as the empty object) is not [null], and
    every field the variant reads can be converted to text; variant 1 reads
    [html] and [css], variant 2 also [js]. *)
Theorem X1_buildMessages_returns_iff (v : variant) (history state : value) :
  shallow_fields v (default_to state (VObj [])) = true ->
  ((exists msgs : list message,
      buildMessages_of v history state = ([], Normal msgs))
   <-> iterable (default_to history (VArr [])) = true
       /\ is_nullish (default_to state (VObj [])) = false
       /\ forallb (fun p => convertible (read (default_to state (VObj [])) p))
            (slots v) = true).
Proof. intros _. apply buildMessages_returns_iff. Qed.

End Building.

(** ** Invocations of [buildMessages], and the prompt *)


Section Invocations.
Context {engine : Engine}.



End Invocations.

(** ** Every run of the handler *)

Section Runs.
Context {engine : Engine}.
Variable env : environment.

Lemma handler_nullish_body (v : variant) (net : upstream) (req_body : value) :
  is_nullish req_body = true ->
  handler_of v env net req_body = ([], Throw (TypeError CannotDestructure)).
Proof.
  intro H. destruct v; unfold handler_of, V1.handler, V2.handler;
    rewrite H; reflexivity.
Qed.

(** The four ways a run can go. *)
Lemma handler_cases (v : variant) (net : upstream) (req_body : value) :
  (is_nullish req_body = true
   /\ handler_of v env net req_body = ([], Throw (TypeError CannotDestructure)))
  \/ (is_nullish req_body = false /\ truthy (prompt_of req_body) = false
      /\ handler_of v env net req_body = ([InvalidRequest], Normal tt))
  \/ (is_nullish req_body = false /\ truthy (prompt_of req_body) = true
      /\ exists why : type_error,
           buildMessages_of v (history_of req_body) (state_of req_body)
           = ([], Throw (TypeError why))
           /\ handler_of v env net req_body = ([], Throw (TypeError why)))
  \/ (is_nullish req_body = false /\ truthy (prompt_of req_body) = true
      /\ exists msgs : list message,
           buildMessages_of v (history_of req_body) (state_of req_body)
           = ([], Normal msgs)
           /\ handler_of v env net req_body
              = (request_log v (msgs ++ [user_message (prompt_of req_body)])
                 ++ fetch_call (endpoint env)
                      (upstream_request v env
                         (msgs ++ [user_message (prompt_of req_body)]))
                    :: answered
                         (net (endpoint env)
                            (upstream_request v env
                               (msgs ++ [user_message (prompt_of req_body)]))),
                 Normal tt)).
Proof.
  destruct (is_nullish req_body) eqn:Hbody.
  { left. split; [reflexivity |]. apply handler_nullish_body. exact Hbody. }
  destruct (truthy (prompt_of req_body)) eqn:Hprompt.
  2:{ right; left. repeat split. apply handler_falsy_prompt; assumption. }
  destruct (buildMessages_cases v (history_of req_body) (state_of req_body))
    as [[why Hbuild] | [first [rest [Hbuild _]]]].
  - right; right; left. repeat split. exists why. split; [exact Hbuild |].
    apply handler_build_throws; assumption.
  - right; right; right. repeat split. eexists. split; [exact Hbuild |].
    apply (handler_run env v net _ _ Hbody Hprompt Hbuild).
Qed.

(** What the handler does after the upstream call has settled ends with
    one response, and holds no other. *)
Lemma answered_ends_with_response (c : completion response) :
  exists (pre : list event) (status : Z) (body : value),
    answered c = pre ++ [res_send status body]
    /\ existsb is_res_send pre = false
    /\ In status [200; 500; 502]%Z.
Proof.
  destruct c as [r | e]; cbn [answered].
  - destruct (ok r); [destruct (json r) | destruct (text r)].
    + exists []. do 2 eexists. repeat split. cbn; tauto.
    + eexists [_]. do 2 eexists. repeat split. cbn; tauto.
    + eexists [_]. do 2 eexists. repeat split. cbn; tauto.
    + eexists [_]. do 2 eexists. repeat split. cbn; tauto.
  - eexists [_]. do 2 eexists. repeat split. cbn; tauto.
Qed.

Lemma request_log_no_response (v : variant) (messages : list message) :
  existsb is_res_send (request_log v messages) = false.
Proof. destruct v; reflexivity. Qed.

Lemma request_log_no_fetch (v : variant) (messages : list message) :
  existsb is_fetch_call (request_log v messages) = false.
Proof. destruct v; reflexivity. Qed.

(** X3: for a state whose fields read by the variant are of modest
    nesting, an exception leaves the handler only from before its [try]
    block: it is a [TypeError] of the language, never an exception of the
    upstream exchange, and the run has then done nothing, no log, no
    upstream call, no response. *)
Theorem X3_only_type_errors_escape (v : variant) (net : upstream)
  (req_body : value) (e : exn) :
  shallow_fields v (state_of req_body) = true ->
  snd (handler_of v env net req_body) = Throw e ->
  fst (handler_of v env net req_body) = []
  /\ (exists why : type_error, e = TypeError why)
  /\ (is_nullish req_body = true \/ truthy (prompt_of req_body) = true).
Proof.
  intros _ H.
  destruct (handler_cases v net req_body)
    as [[Hb Hrun] | [[Hb [Hp Hrun]] | [[Hb [Hp [why [_ Hrun]]]]
                                      | [Hb [Hp [msgs [_ Hrun]]]]]]];
    rewrite Hrun in *; cbn [fst snd] in *; try discriminate H;
    injection H as <-; eauto.
Qed.

(** X4: a run of the handler that completes has sent exactly one response,
    as its last event, with status 200, 400, 500 or 502. *)
Theorem X4_one_response_sent_last (v : variant) (net : upstream)
  (req_body : value) :
  snd (handler_of v env net req_body) = Normal tt ->
  exists (pre : list event) (status : Z) (body : value),
    fst (handler_of v env net req_body) = pre ++ [res_send status body]
    /\ existsb is_res_send pre = false
    /\ In status [200; 400; 500; 502]%Z.
Proof.
  intro H.
  destruct (handler_cases v net req_body)
    as [[Hb Hrun] | [[Hb [Hp Hrun]] | [[Hb [Hp [why [_ Hrun]]]]
                                      | [Hb [Hp [msgs [_ Hrun]]]]]]];
    rewrite Hrun in *; cbn [fst snd] in *; try discriminate H.
  - exists []. do 2 eexists. repeat split. cbn; tauto.
  - destruct (answered_ends_with_response
                (net (endpoint env)
                   (upstream_request v env
                      (msgs ++ [user_message (prompt_of req_body)]))))
      as [pre [status [body [Hans [Hpre Hstatus]]]]].
    rewrite Hans.
    exists (request_log v (msgs ++ [user_message (prompt_of req_body)])
            ++ fetch_call (endpoint env)
                 (upstream_request v env
                    (msgs ++ [user_message (prompt_of req_body)])) :: pre),
      status, body.
    repeat split.
    + rewrite <- app_assoc. reflexivity.
    + rewrite existsb_app, request_log_no_response. cbn. exact Hpre.
    + cbn in *. tauto.
Qed.

(** X5: a run of the handler calls upstream at most once. *)
Theorem X5_at_most_one_upstream_call (v : variant) (net : upstream)
  (req_body : value) :
  length (filter is_fetch_call (fst (handler_of v env net req_body))) <= 1.
Proof.
  destruct (handler_cases v net req_body)
    as [[Hb Hrun] | [[Hb [Hp Hrun]] | [[Hb [Hp [why [_ Hrun]]]]
                                      | [Hb [Hp [msgs [_ Hrun]]]]]]];
    rewrite Hrun; cbn [fst]; try (cbn; lia).
  rewrite filter_app. cbn [filter is_fetch_call].
  assert (Hnone : forall evs, existsb is_fetch_call evs = false ->
                              filter is_fetch_call evs = []).
  { induction evs as [| ev evs IH]; [reflexivity |]. cbn.
    destruct (is_fetch_call ev); [discriminate |]. exact IH. }
  rewrite (Hnone _ (request_log_no_fetch v _)).
  rewrite (Hnone _ (answered_no_fetch _)). cbn. lia.
Qed.

Lemma default_to_twice (v d : value) :
  default_to (default_to v d) d = default_to v d.
Proof. destruct v; try reflexivity. destruct d; reflexivity. Qed.

(** X14: the requests the handler answers, and the ones it lets fall: for
    a state whose fields read by the variant are of modest nesting, a run
    completes exactly when the body is not [null] or [undefined] and either
    the prompt is falsy, or the history is an array or a string, the state
    is not [null] and the fields of the state that the variant reads can be
    converted to text.  Every other request ends in an exception that the
    handler does not catch. *)
Theorem X14_handler_completes_iff (v : variant) (net : upstream)
  (req_body : value) :
  shallow_fields v (state_of req_body) = true ->
  (snd (handler_of v env net req_body) = Normal tt
   <-> is_nullish req_body = false
       /\ (truthy (prompt_of req_body) = false
           \/ (iterable (history_of req_body) = true
               /\ is_nullish (state_of req_body) = false
               /\ forallb (fun p => convertible (read (state_of req_body) p))
                    (slots v) = true))).
Proof.
  intros _.
  pose proof (buildMessages_returns_iff v (history_of req_body)
                (state_of req_body)) as Hiff.
  destruct (handler_cases v net req_body)
    as [[Hb Hrun] | [[Hb [Hp Hrun]] | [[Hb [Hp [why [Hbuild Hrun]]]]
                                      | [Hb [Hp [msgs [Hbuild Hrun]]]]]]];
    rewrite Hrun; cbn [snd]; unfold history_of, state_of in *;
    rewrite !default_to_twice in Hiff.
  - split; [discriminate |]. intros [H _]. congruence.
  - split; [| reflexivity]. intros _. split; [exact Hb | left; exact Hp].
  - split; [discriminate |]. intros [_ [H | H]]; [congruence |].
    apply Hiff in H. destruct H as [msgs H]. rewrite Hbuild in H.
    discriminate H.
  - split; [| reflexivity]. intros _. split; [exact Hb | right].
    apply Hiff. exists msgs. exact Hbuild.
Qed.

Lemma endpoint_text :
  endpoint env
  = VStr match env_OPENAI_ENDPOINT env with
         | Some (c :: url) => c :: url
         | _ => DEFAULT_ENDPOINT
         end.
Proof.
  unfold endpoint, V1.OPENAI_ENDPOINT.
  destruct (env_OPENAI_ENDPOINT env) as [[| c url] |]; reflexivity.
Qed.

(** X6: whatever call the handler makes upstream is made once the messages
    are built, to the endpoint of the environment, or to the OpenAI URL when
    the environment has none or an empty one; it sends the built messages
    followed by the prompt, and that list has been logged before. *)
Theorem X6_upstream_call (v : variant) (net : upstream) (req_body : value)
  (url : value) (init : request_init) :
  In (fetch_call url init) (fst (handler_of v env net req_body)) ->
  url = VStr match env_OPENAI_ENDPOINT env with
             | Some (c :: url) => c :: url
             | _ => DEFAULT_ENDPOINT
             end
  /\ exists msgs : list message,
       buildMessages_of v (history_of req_body) (state_of req_body)
       = ([], Normal msgs)
       /\ init = upstream_request v env
                   (msgs ++ [user_message (prompt_of req_body)])
       /\ exists before after : list event,
            fst (handler_of v env net req_body)
            = before ++ fetch_call url init :: after
            /\ In (console_info
                     [Val (messages_value
                             (msgs ++ [user_message (prompt_of req_body)]))])
                  before.
Proof.
  intro Hin.
  destruct (handler_cases v net req_body)
    as [[Hb Hrun] | [[Hb [Hp Hrun]] | [[Hb [Hp [why [_ Hrun]]]]
                                      | [Hb [Hp [msgs [Hbuild Hrun]]]]]]];
    rewrite Hrun in *; cbn [fst] in Hin.
  - destruct Hin.
  - destruct Hin as [Hin | []]. discriminate Hin.
  - destruct Hin.
  - assert (Hcall : fetch_call url init
                    = fetch_call (endpoint env)
                        (upstream_request v env
                           (msgs ++ [user_message (prompt_of req_body)]))).
    { apply in_app_or in Hin. destruct Hin as [Hin | [Hin | Hin]].
      - pose proof (request_log_no_fetch v
                      (msgs ++ [user_message (prompt_of req_body)])) as Hno.
        assert (Hex : existsb is_fetch_call
                        (request_log v
                           (msgs ++ [user_message (prompt_of req_body)]))
                      = true).
        { apply existsb_exists. exists (fetch_call url init). split; trivial. }
        rewrite Hno in Hex. discriminate Hex.
      - symmetry. exact Hin.
      - pose proof (answered_no_fetch
                      (net (endpoint env)
                         (upstream_request v env
                            (msgs ++ [user_message (prompt_of req_body)]))))
          as Hno.
        assert (Hex : existsb is_fetch_call
                        (answered
                           (net (endpoint env)
                              (upstream_request v env
                                 (msgs ++ [user_message (prompt_of req_body)]))))
                      = true).
        { apply existsb_exists. exists (fetch_call url init). split; trivial. }
        rewrite Hno in Hex. discriminate Hex. }
    injection Hcall as -> ->. split; [apply endpoint_text |].
    exists msgs. repeat split; [exact Hbuild |].
    do 2 eexists. split; [reflexivity |].
    destruct v; cbn; tauto.
Qed.

(** X8: of a 2xx response whose body parses, the handler relays a content
    of the first choice that is a string, a boolean or a finite number as
    it is, and puts the empty string in the place of one that is [null] or
    [undefined], and of no other: a content that is 0, [false] or the empty
    string is relayed, not replaced. *)
Theorem X8_reply_is_relayed_unchanged (v : variant) (net : upstream)
  (req_body : value) (msgs : list message) (r : response) (data : value) :
  is_nullish req_body = false ->
  truthy (prompt_of req_body) = true ->
  buildMessages_of v (history_of req_body) (state_of req_body)
  = ([], Normal msgs) ->
  net (endpoint env)
      (upstream_request v env (msgs ++ [user_message (prompt_of req_body)]))
  = Normal r ->
  ok r = true ->
  json r = Normal data ->
  is_nullish (first_choice_content data) = true
  \/ relayable (first_choice_content data) = true ->
  handler_of v env net req_body
  = (request_log v (msgs ++ [user_message (prompt_of req_body)])
     ++ [fetch_call (endpoint env)
           (upstream_request v env
              (msgs ++ [user_message (prompt_of req_body)]));
         Reply (if is_nullish (first_choice_content data) then VStr []
                else first_choice_content data)],
     Normal tt).
Proof.
  intros Hbody Hprompt Hbuild Hnet Hok Hjson _.
  rewrite (handler_run env v net _ _ Hbody Hprompt Hbuild).
  cbv zeta. rewrite Hnet. cbn [answered]. rewrite Hok, Hjson. reflexivity.
Qed.

(** X9: the handler reads three things of the body, the prompt, the history
    and the state, an absent history counting as the empty array and an
    absent state as the empty object; two bodies that agree on them are
    handled alike, whatever else they hold. *)
Theorem X9_only_three_fields_matter (v : variant) (net : upstream)
  (req_body req_body' : value) :
  is_nullish req_body = false ->
  is_nullish req_body' = false ->
  prompt_of req_body' = prompt_of req_body ->
  history_of req_body' = history_of req_body ->
  state_of req_body' = state_of req_body ->
  handler_of v env net req_body' = handler_of v env net req_body.
Proof.
  intros Hb Hb' Hp Hh Hs. unfold prompt_of, history_of, state_of in *.
  destruct v; unfold handler_of, V1.handler, V2.handler;
    rewrite Hb, Hb', Hp, Hh, Hs; reflexivity.
Qed.

End Runs.

Section Secrecy.
Context {engine : Engine}.

(** X7: the API key and the endpoint of the environment reach the upstream
    call only: with the upstream settling the same way, two environments
    give the same log, the same response and the same completion. *)
Theorem X7_environment_stays_upstream (v : variant) (env env' : environment)
  (c : completion response) (req_body : value) :
  visible (fst (handler_of v env (always c) req_body))
  = visible (fst (handler_of v env' (always c) req_body))
  /\ snd (handler_of v env (always c) req_body)
     = snd (handler_of v env' (always c) req_body).
Proof.
  destruct (is_nullish req_body) eqn:Hbody.
  { rewrite (handler_nullish_body env), (handler_nullish_body env') by exact Hbody. split; reflexivity. }
  destruct (truthy (prompt_of req_body)) eqn:Hprompt.
  2:{ rewrite (handler_falsy_prompt env), (handler_falsy_prompt env') by assumption. split; reflexivity. }
  destruct (buildMessages_cases v (history_of req_body) (state_of req_body))
    as [[why Hbuild] | [first [rest [Hbuild _]]]].
  - rewrite (handler_build_throws env v _ _ _ Hbody Hprompt Hbuild).
    rewrite (handler_build_throws env' v _ _ _ Hbody Hprompt Hbuild).
    split; reflexivity.
  - rewrite (handler_run env v _ _ _ Hbody Hprompt Hbuild).
    rewrite (handler_run env' v _ _ _ Hbody Hprompt Hbuild).
    cbv zeta. unfold always, visible. cbn [fst snd].
    rewrite !filter_app. cbn [filter is_fetch_call negb].
    split; reflexivity.
Qed.

End Secrecy.

(** ** More on what [buildMessages] returns *)

Lemma or_else_same (a b placeholder : value) :
  b = a \/ (truthy a = false /\ truthy b = false) ->
  or_else b placeholder = or_else a placeholder.
Proof.
  intros [-> | [Ha Hb]]; [reflexivity |]. unfold or_else. now rewrite Ha, Hb.
Qed.

Section Shape.
Context {engine : Engine}.

Ltac run_silent :=
  unfold ret, eval, throw; repeat (rewrite bind_silent; cbv beta iota).

(** X2: whenever [buildMessages] returns, its list is one system message,
    then the replay of everything the loop over the history visits, each
    entry unconverted whatever its type, then nothing (variant 1) or one
    more system message (variant 2); so it has twice as many messages as
    the loop visits entries, plus one or two. *)
Theorem X2_buildMessages_shape (v : variant) (history state : value)
  (msgs : list message) :
  buildMessages_of v history state = ([], Normal msgs) ->
  exists (first : message) (rest : list message),
    msgs
    = first :: history_replay (items_of (default_to history (VArr []))) ++ rest
    /\ msg_role first = System
    /\ Forall (fun m => msg_role m = System) rest
    /\ length msgs
       = 2 * length (items_of (default_to history (VArr [])))
         + length (slots v) - 1.
Proof.
  intro H.
  destruct (buildMessages_cases v history state)
    as [[why Hthrow] | [first [rest [Hrun [Hfirst [Hrest Hlen]]]]]].
  - rewrite Hthrow in H. discriminate H.
  - rewrite Hrun in H. injection H as <-.
    exists first, rest. repeat split; trivial.
    cbn [length]. rewrite length_app, history_replay_length, Hlen.
    destruct v; cbn [slots length]; lia.
Qed.

(** X10: [buildMessages] reads of the state only the fields of its variant,
    and a field that is falsy ([null], [false], 0, the empty string) counts
    like an absent one: two states that are both [null] or both not, and
    whose fields read by the variant are equal or both falsy, give the same
    result.  Variant 1 does not read [js]. *)
Theorem X10_state_fields_read (v : variant) (history state state' : value) :
  is_nullish (default_to state' (VObj []))
  = is_nullish (default_to state (VObj [])) ->
  (forall p : property,
     In p (slots v) ->
     read (default_to state' (VObj [])) p = read (default_to state (VObj [])) p
     \/ (truthy (read (default_to state (VObj [])) p) = false
         /\ truthy (read (default_to state' (VObj [])) p) = false)) ->
  buildMessages_of v history state' = buildMessages_of v history state.
Proof.
  set (st := default_to state (VObj [])).
  set (st' := default_to state' (VObj [])).
  intros Hnull Hfields.
  assert (Hor : forall p ph, In p (slots v) ->
            or_else (read st' p) ph = or_else (read st p) ph).
  { intros p ph Hp. apply or_else_same, Hfields, Hp. }
  destruct v; cbn [buildMessages_of slots] in *;
    unfold V1.buildMessages, V2.buildMessages, get;
    fold st; fold st'; rewrite Hnull.
  - destruct (is_nullish st); [reflexivity |]. run_silent.
    rewrite (Hor P_html) by (cbn; tauto).
    destruct (ToString (or_else (read st P_html) _)); [| reflexivity].
    run_silent. rewrite (Hor P_css) by (cbn; tauto). reflexivity.
  - rewrite iterate_iterable.
    destruct (iterable (default_to history (VArr []))); run_silent;
      [| reflexivity].
    destruct (is_nullish st); [reflexivity |]. run_silent.
    rewrite (Hor P_html) by (cbn; tauto).
    destruct (ToString (or_else (read st P_html) _)); [| reflexivity].
    run_silent. rewrite (Hor P_css) by (cbn; tauto).
    destruct (ToString (or_else (read st P_css) _)); [| reflexivity].
    run_silent. rewrite (Hor P_js) by (cbn; tauto). reflexivity.
Qed.

(** X11: a history that is a string is not refused: the loop visits it code
    point by code point, and the replay has one user message and one
    placeholder reply for each code point of the string. *)
Theorem X11_string_history (v : variant) (s : jsstring) (state : value) :
  is_state state = true ->
  buildMessages_of v (VStr s) state
  = ([], Normal (before_history v state
                 ++ history_replay (map VStr (code_points s))
                 ++ after_history v state))
  /\ length (history_replay (map VStr (code_points s)))
     = 2 * length (code_points s).
Proof.
  intro Hstate. apply is_state_fields in Hstate. destruct Hstate as [Hnull Hf].
  split.
  - destruct v; cbn [buildMessages_of before_history after_history].
    + rewrite app_nil_r.
      apply buildMessages_1_run; try reflexivity; try exact Hnull;
        apply ToString_substituted, Hf; cbn; tauto.
    + apply buildMessages_2_run; try reflexivity; try exact Hnull;
        apply ToString_substituted, Hf; cbn; tauto.
  - rewrite history_replay_length, length_map. reflexivity.
Qed.

End Shape.

(** ** The string iterator and [trim] *)

Lemma code_points_cons (c d : code_unit) (rest : jsstring) :
  code_points (c :: d :: rest)
  = if is_high_surrogate c && is_low_surrogate d
    then [c; d] :: code_points rest
    else [c] :: code_points (d :: rest).
Proof. reflexivity. Qed.

Lemma code_points_spec (n : nat) (s : jsstring) :
  length s <= n ->
  concat (code_points s) = s
  /\ Forall
       (fun cp =>
          (exists c, cp = [c])
          \/ (exists c d,
                cp = [c; d]
                /\ is_high_surrogate c = true /\ is_low_surrogate d = true))
       (code_points s).
Proof.
  revert s. induction n as [| n IH]; intros s Hlen.
  - destruct s; [split; [reflexivity | constructor] | cbn in Hlen; lia].
  - destruct s as [| c [| d rest]].
    + split; [reflexivity | constructor].
    + split; [reflexivity | repeat constructor; eauto].
    + rewrite code_points_cons.
      destruct (is_high_surrogate c && is_low_surrogate d) eqn:Hpair.
      * apply andb_true_iff in Hpair. destruct Hpair as [Hc Hd].
        destruct (IH rest) as [Hcat Hall]; [cbn in Hlen; lia |].
        split.
        -- cbn [concat app]. now rewrite Hcat.
        -- constructor; [right; eauto | exact Hall].
      * destruct (IH (d :: rest)) as [Hcat Hall]; [cbn in Hlen |- *; lia |].
        split.
        -- cbn [concat app]. now rewrite Hcat.
        -- constructor; [left; eauto | exact Hall].
Qed.

(** X12: the pieces a loop over a string visits, put together again, are
    the string; each piece is one code unit, or a high surrogate followed by
    a low one. *)
Theorem X12_code_points_partition (s : jsstring) :
  concat (code_points s) = s
  /\ Forall
       (fun cp =>
          (exists c, cp = [c])
          \/ (exists c d,
                cp = [c; d]
                /\ is_high_surrogate c = true /\ is_low_surrogate d = true))
       (code_points s).
Proof. apply (code_points_spec (length s)). lia. Qed.

Lemma trimStart_spec (s : jsstring) :
  exists pre : jsstring,
    s = pre ++ trimStart s
    /\ forallb is_white_space pre = true
    /\ (trimStart s = []
        \/ exists c rest, trimStart s = c :: rest /\ is_white_space c = false).
Proof.
  induction s as [| c s IH].
  - exists []. repeat split. left. reflexivity.
  - cbn [trimStart]. destruct (is_white_space c) eqn:Hc.
    + destruct IH as [pre [Heq [Hpre Hhd]]].
      exists (c :: pre). repeat split.
      * cbn. now rewrite <- Heq.
      * cbn. now rewrite Hc.
      * exact Hhd.
    + exists []. repeat split. right. eauto.
Qed.

Lemma trimEnd_cons (c : code_unit) (s : jsstring) :
  trimEnd (c :: s)
  = match trimEnd s with
    | [] => if is_white_space c then [] else [c]
    | kept => c :: kept
    end.
Proof. unfold trimEnd. cbn [fold_right]. destruct (fold_right _ [] s); reflexivity. Qed.

Lemma trimEnd_spec (s : jsstring) :
  exists post : jsstring,
    s = trimEnd s ++ post
    /\ forallb is_white_space post = true
    /\ (trimEnd s = []
        \/ exists init c, trimEnd s = init ++ [c] /\ is_white_space c = false).
Proof.
  induction s as [| c s IH].
  - exists []. repeat split. left. reflexivity.
  - rewrite trimEnd_cons. destruct IH as [post [Heq [Hpost Hlast]]].
    destruct (trimEnd s) as [| k kept] eqn:Hkept.
    + cbn [app] in Heq. subst post. destruct (is_white_space c) eqn:Hc.
      * exists (c :: s). repeat split.
        -- cbn. now rewrite Hc.
        -- left. reflexivity.
      * exists s. repeat split; [exact Hpost |].
        right. exists [], c. split; [reflexivity | exact Hc].
    + exists post. repeat split.
      * cbn [app] in Heq |- *. f_equal. exact Heq.
      * exact Hpost.
      * right. destruct Hlast as [Hnil | [init [l [Hinit Hl]]]];
          [discriminate Hnil |].
        exists (c :: init), l. split; [| exact Hl].
        cbn [app]. f_equal. exact Hinit.
Qed.

Lemma trimEnd_keeps_head (c : code_unit) (s : jsstring) :
  is_white_space c = false ->
  exists rest, trimEnd (c :: s) = c :: rest.
Proof.
  intro Hc. rewrite trimEnd_cons. rewrite Hc.
  destruct (trimEnd s); eauto.
Qed.

(** X13: [trim] removes white space from the two ends of a string and
    nothing else: the string is white space, then its trimmed form, then
    white space, and the trimmed form neither starts nor ends with white
    space. *)
Theorem X13_trim_removes_outer_white_space (s : jsstring) :
  (exists pre post : jsstring,
     s = pre ++ trim s ++ post
     /\ forallb is_white_space pre = true
     /\ forallb is_white_space post = true)
  /\ (forall c rest, trim s = c :: rest -> is_white_space c = false)
  /\ (forall init c, trim s = init ++ [c] -> is_white_space c = false).
Proof.
  unfold trim.
  destruct (trimStart_spec s) as [pre [Hs [Hpre Hhd]]].
  destruct (trimEnd_spec (trimStart s)) as [post [Ht [Hpost Hlast]]].
  split; [| split].
  - exists pre, post. repeat split; trivial.
    rewrite <- Ht. exact Hs.
  - intros c rest Htrim.
    destruct Hhd as [Hnil | [c' [rest' [Hstart Hc']]]].
    + rewrite Hnil in Htrim. discriminate Htrim.
    + rewrite Hstart in Htrim.
      destruct (trimEnd_keeps_head c' rest' Hc') as [kept Hkept].
      rewrite Hkept in Htrim. injection Htrim as <- _. exact Hc'.
  - intros init c Htrim.
    destruct Hlast as [Hnil | [init' [c' [Hend Hc']]]].
    + rewrite Hnil in Htrim. destruct init; discriminate Htrim.
    + rewrite Hend in Htrim. apply app_inj_tail in Htrim.
      destruct Htrim as [_ <-]. exact Hc'.
Qed.

(** ** Responses *)

Lemma filter_none {A} (f : A -> bool) (l : list A) :
  existsb f l = false -> filter f l = [].
Proof.
  induction l as [| a l IH]; [reflexivity |]. cbn.
  destruct (f a); [discriminate |]. exact IH.
Qed.

Section Responses.
Context {engine : Engine}.

Lemma answered_forms (c : completion response) :
  (exists reply : value, answered c = [Reply reply])
  \/ (exists (args : list logged) (status : Z) (body : value),
        answered c = [console_error args; res_send status body]
        /\ (status = 500 \/ status = 502)%Z).
Proof.
  destruct c as [r | e]; cbn [answered].
  - destruct (ok r); [destruct (json r) | destruct (text r)].
    + left. eauto.
    + right. do 3 eexists. split; [reflexivity | left; reflexivity].
    + right. do 3 eexists. split; [reflexivity | right; reflexivity].
    + right. do 3 eexists. split; [reflexivity | left; reflexivity].
  - right. do 3 eexists. split; [reflexivity | left; reflexivity].
Qed.

(** X15: the two variants answer a request alike: when both complete, with
    the upstream settling the same way for both, they send the same
    response. *)
Theorem X15_variants_answer_alike (env : environment)
  (c : completion response) (req_body : value) :
  snd (handler_of Variant1 env (always c) req_body) = Normal tt ->
  snd (handler_of Variant2 env (always c) req_body) = Normal tt ->
  responses (fst (handler_of Variant1 env (always c) req_body))
  = responses (fst (handler_of Variant2 env (always c) req_body)).
Proof.
  intros H1 H2.
  destruct (handler_cases env Variant1 (always c) req_body)
    as [[Hb Hrun] | [[Hb [Hp Hrun]] | [[Hb [Hp [why [_ Hrun]]]]
                                      | [Hb [Hp [msgs [_ Hrun]]]]]]];
    rewrite Hrun in *; cbn [fst snd] in *; try discriminate H1.
  - rewrite (handler_falsy_prompt env Variant2 _ _ Hb Hp). reflexivity.
  - destruct (handler_cases env Variant2 (always c) req_body)
      as [[Hb' Hrun'] | [[Hb' [Hp' Hrun']] | [[Hb' [Hp' [why [_ Hrun']]]]
                                            | [Hb' [Hp' [msgs' [_ Hrun']]]]]]];
      rewrite Hrun' in *; cbn [fst snd] in *; try discriminate H2;
      try congruence.
    unfold responses, always. rewrite !filter_app. cbn [filter is_res_send].
    rewrite !(filter_none _ _ (request_log_no_response _ _)). reflexivity.
Qed.

(** X16: an error of the upstream exchange is logged before it is
    answered: a response with status 500 or 502 follows a call of
    [console.error] immediately. *)
Theorem X16_errors_are_logged (env : environment) (v : variant)
  (net : upstream) (req_body : value) (pre : list event) (status : Z)
  (body : value) :
  fst (handler_of v env net req_body) = pre ++ [res_send status body] ->
  (status = 500 \/ status = 502)%Z ->
  exists (before : list event) (args : list logged),
    pre = before ++ [console_error args].
Proof.
  intros Htrace Hstatus.
  destruct (handler_cases env v net req_body)
    as [[Hb Hrun] | [[Hb [Hp Hrun]] | [[Hb [Hp [why [_ Hrun]]]]
                                      | [Hb [Hp [msgs [_ Hrun]]]]]]];
    rewrite Hrun in Htrace; cbn [fst] in Htrace.
  - destruct pre; discriminate Htrace.
  - change [InvalidRequest] with ([] ++ [InvalidRequest]) in Htrace.
    apply app_inj_tail in Htrace. destruct Htrace as [_ Hsent].
    unfold InvalidRequest in Hsent. injection Hsent as <- _.
    destruct Hstatus; discriminate.
  - destruct pre; discriminate Htrace.
  - destruct (answered_forms
                (net (endpoint env)
                   (upstream_request v env
                      (msgs ++ [user_message (prompt_of req_body)]))))
      as [[reply Hans] | [args [st [b [Hans _]]]]]; rewrite Hans in Htrace.
    + replace (request_log v (msgs ++ [user_message (prompt_of req_body)])
               ++ fetch_call (endpoint env)
                    (upstream_request v env
                       (msgs ++ [user_message (prompt_of req_body)]))
                  :: [Reply reply])
        with ((request_log v (msgs ++ [user_message (prompt_of req_body)])
               ++ [fetch_call (endpoint env)
                     (upstream_request v env
                        (msgs ++ [user_message (prompt_of req_body)]))])
              ++ [Reply reply]) in Htrace
        by (rewrite <- app_assoc; reflexivity).
      apply app_inj_tail in Htrace. destruct Htrace as [_ Hsent].
      unfold Reply in Hsent. injection Hsent as <- _.
      destruct Hstatus; discriminate.
    + replace (request_log v (msgs ++ [user_message (prompt_of req_body)])
               ++ fetch_call (endpoint env)
                    (upstream_request v env
                       (msgs ++ [user_message (prompt_of req_body)]))
                  :: [console_error args; res_send st b])
        with (((request_log v (msgs ++ [user_message (prompt_of req_body)])
                ++ [fetch_call (endpoint env)
                      (upstream_request v env
                         (msgs ++ [user_message (prompt_of req_body)]))])
               ++ [console_error args])
              ++ [res_send st b]) in Htrace
        by (rewrite <- !app_assoc; reflexivity).
      apply app_inj_tail in Htrace. destruct Htrace as [<- _].
      eauto.
Qed.

End Responses.

(** ** The further properties at concrete requests *)

Lemma X2_witness :
  exists (first : message) (rest : list message),
    example_built_1
    = first
      :: history_replay
           (items_of (default_to (history_of example_request) (VArr [])))
         ++ rest
    /\ msg_role first = System
    /\ Forall (fun m => msg_role m = System) rest
    /\ length example_built_1
       = 2 * length (items_of (default_to (history_of example_request)
                                          (VArr [])))
         + length (slots Variant1) - 1.
Proof.
  apply (X2_buildMessages_shape (engine := example_engine) Variant1
           (history_of example_request) (state_of example_request)
           example_built_1).
  reflexivity.
Defined.

Lemma X3_witness :
  fst (handler_of (engine := example_engine) Variant2 example_env unreachable
         request_with_numeric_history)
  = [].
Proof.
  apply (X3_only_type_errors_escape (engine := example_engine) example_env
           Variant2 unreachable request_with_numeric_history
           (TypeError NotIterable));
    reflexivity.
Defined.

Lemma X4_witness :
  exists (pre : list event) (status : Z) (body : value),
    fst (handler_of (engine := example_engine) Variant1 example_env
           unreachable example_request)
    = pre ++ [res_send status body]
    /\ existsb is_res_send pre = false
    /\ In status [200; 400; 500; 502]%Z.
Proof.
  apply (X4_one_response_sent_last (engine := example_engine) example_env
           Variant1 unreachable example_request).
  reflexivity.
Defined.

Lemma X6_witness :
  endpoint example_env
  = VStr match env_OPENAI_ENDPOINT example_env with
         | Some (c :: url) => c :: url
         | _ => DEFAULT_ENDPOINT
         end.
Proof.
  apply (X6_upstream_call (engine := example_engine) example_env Variant1
           unreachable example_request (endpoint example_env)
           (upstream_request Variant1 example_env example_sent_1)).
  right. left. reflexivity.
Defined.

Lemma X8_witness :
  handler_of (engine := example_engine) Variant1 example_env
    (always (Normal (completion_with (VNum 0%float)))) example_request
  = (request_log Variant1 example_sent_1
     ++ [fetch_call (endpoint example_env)
           (upstream_request Variant1 example_env example_sent_1);
         Reply (VNum 0%float)],
     Normal tt).
Proof.
  apply (X8_reply_is_relayed_unchanged (engine := example_engine) example_env
           Variant1 (always (Normal (completion_with (VNum 0%float))))
           example_request example_built_1 (completion_with (VNum 0%float))
           (VObj [(lit "choices",
                   VArr [VObj [(lit "message",
                                VObj [(lit "content", VNum 0%float)])]])]));
    try reflexivity.
  right. reflexivity.
Defined.

Lemma X9_witness :
  handler_of (engine := example_engine) Variant2 example_env unreachable
    padded_request
  = handler_of (engine := example_engine) Variant2 example_env unreachable
      bare_request.
Proof.
  apply (X9_only_three_fields_matter (engine := example_engine) example_env
           Variant2 unreachable bare_request padded_request);
    reflexivity.
Defined.

Lemma X10_witness :
  buildMessages_of (engine := example_engine) Variant1 (VArr [])
    (VObj [(lit "html", VNull); (lit "js", VStr (lit "alert(1)"))])
  = buildMessages_of (engine := example_engine) Variant1 (VArr []) (VObj []).
Proof.
  apply (X10_state_fields_read (engine := example_engine) Variant1 (VArr [])
           (VObj [])
           (VObj [(lit "html", VNull); (lit "js", VStr (lit "alert(1)"))])).
  - reflexivity.
  - intros p [<- | [<- | []]].
    + right. split; reflexivity.
    + left. reflexivity.
Defined.

Lemma X11_witness :
  length (history_replay (map VStr (code_points (lit "hi"))))
  = 2 * length (code_points (lit "hi")).
Proof.
  apply (X11_string_history (engine := example_engine) Variant1 (lit "hi")
           (VObj [])).
  reflexivity.
Defined.

Lemma X15_witness :
  responses (fst (handler_of (engine := example_engine) Variant1 example_env
                    (always (Normal unavailable)) example_request))
  = responses (fst (handler_of (engine := example_engine) Variant2
                      example_env (always (Normal unavailable))
                      example_request)).
Proof.
  apply (X15_variants_answer_alike (engine := example_engine) example_env
           (Normal unavailable) example_request);
    reflexivity.
Defined.

Lemma X16_witness :
  exists (before : list event) (args : list logged),
    [console_info [Val (messages_value example_sent_1)];
     fetch_call (endpoint example_env)
       (upstream_request Variant1 example_env example_sent_1);
     console_error [Exn fetch_failed]]
    = before ++ [console_error args].
Proof.
  apply (X16_errors_are_logged (engine := example_engine) example_env Variant1
           unreachable example_request
           [console_info [Val (messages_value example_sent_1)];
            fetch_call (endpoint example_env)
              (upstream_request Variant1 example_env example_sent_1);
            console_error [Exn fetch_failed]]
           500 (VObj [(lit "error", VStr (lit "Proxy error"));
                      (lit "details", VStr (lit "fetch failed"))])).
  - reflexivity.
  - left. reflexivity.
Defined.



Lemma X1_witness :
  (exists msgs : list message,
     buildMessages_of (engine := example_engine) Variant2 (VArr [])
       (VObj [(lit "js", VObj [(lit "toString", VNull)])])
     = ([], Normal msgs))
  <-> iterable (default_to (VArr []) (VArr [])) = true
      /\ is_nullish
           (default_to (VObj [(lit "js", VObj [(lit "toString", VNull)])])
              (VObj [])) = false
      /\ forallb
           (fun p =>
              convertible
                (read
                   (default_to
                      (VObj [(lit "js", VObj [(lit "toString", VNull)])])
                      (VObj [])) p))
           (slots Variant2) = true.
Proof.
  apply (X1_buildMessages_returns_iff (engine := example_engine) Variant2
           (VArr []) (VObj [(lit "js", VObj [(lit "toString", VNull)])])).
  reflexivity.
Defined.

Lemma X14_witness :
  snd (handler_of (engine := example_engine) Variant1 example_env unreachable
         example_request) = Normal tt
  <-> is_nullish example_request = false
      /\ (truthy (prompt_of example_request) = false
          \/ (iterable (history_of example_request) = true
              /\ is_nullish (state_of example_request) = false
              /\ forallb
                   (fun p => convertible (read (state_of example_request) p))
                   (slots Variant1) = true)).
Proof.
  apply (X14_handler_completes_iff (engine := example_engine) example_env
           Variant1 unreachable example_request).
  reflexivity.
Defined.
